(** * riseworks-batcher: the CSV-to-payment pipeline and the batch-pay client

    A shallow embedding of [src/datasource.py], [src/rise_client.py],
    [src/frame_signer.py], [src/log.py] and the payment loop of
    [src/main.py].

    Conventions.
    - A Python [str] is a Rocq [string]; a character is its code point, so
      the model covers the code points below 256.
    - A Python [int] is a [Z]; a Python [float] is an IEEE-754 binary64
      value of [SpecFloat] ([prec = 53], [emax = 1024]).
    - Effects (console output, prompts, HTTP exchanges, the signing agent,
      the random generator) are threaded through a state and error monad;
      every effect leaves an [event] in the trace of the [world]. *)

From Stdlib Require Import ZArith Lia String Ascii List Bool.
From Stdlib Require Import Floats.SpecFloat DecimalString.
From stdpp Require Import base strings gmap list.

Set Warnings "-register-all".

Open Scope string_scope.
Open Scope Z_scope.

#[local] Arguments String.append !s1 s2 : simpl nomatch.

(* ===================================================================== *)
(** * Python values that the pipeline handles *)
(* ===================================================================== *)

(** A cell of a [csv.DictReader] row: a string, or [None] (the reader's
    [restval]) when the line is shorter than the header. *)
Inductive pyval :=
| PNone
| PStr (s : string).

(** JSON documents as [json.loads] delivers them. An object keeps its
    members in document order; [py_getitem] looks a key up. *)
Inductive json :=
| JNull
| JBool (b : bool)
| JInt (n : Z)
| JFloat (f : spec_float)
| JStr (s : string)
| JList (items : list json)
| JObj (members : list (string * json)).

Inductive method := GET | POST | PUT.

(** The URLs the client talks to: [AUTH_ENDPOINT], [TEAM_ENDPOINT],
    [f"{TEAM_ENDPOINT}/{team_id}/talent"] (the formatted team id is kept as
    the value it was formatted from) and [f"{PAYMNET_ENDPOINT}/batch-pay"]. *)
Inductive endpoint :=
| AUTH_ENDPOINT
| TEAM_ENDPOINT
| TEAM_TALENT (team_id : json)
| BATCH_PAY.

(** Exceptions the modelled code lets escape. *)
Inductive exn :=
| KeyError (key : string)
| TypeError
| ValueError (msg : string)
| OverflowError
| IndexError
| RequestException
| HttpFailure (m : method) (ep : endpoint) (detail : option json)
| DecodeFailure (text : string)
| NoDataField (payload : json)
| RuntimeError (msg : string).

(** How a call ends: a value, [sys.exit(code)], or an exception. *)
Inductive outcome (A : Type) :=
| Ok (a : A)
| Exit (code : Z)
| Raise (e : exn).
Arguments Ok {A} a.
Arguments Exit {A} code.
Arguments Raise {A} e.

Definition is_ok {A} (o : outcome A) : bool :=
  match o with Ok _ => true | _ => false end.

(* ===================================================================== *)
(** * Python's [float], [int] and true division on binary64 *)
(* ===================================================================== *)

Module PyFloat.

Definition prec : Z := 53.
Definition emax : Z := 1024.

Definition code (c : ascii) : N := N_of_ascii c.

Definition is_digit (c : ascii) : bool :=
  ((48 <=? code c) && (code c <=? 57))%N.

Definition digit_value (c : ascii) : Z := Z.of_N (code c) - 48.

(** [Py_ISSPACE]: space, [\t], [\n], [\v], [\f], [\r]. *)
Definition is_c_space (c : ascii) : bool :=
  ((code c =? 32) || ((9 <=? code c) && (code c <=? 13)))%N.

(** The non-ASCII characters below 256 that are Unicode white space,
    NEL and NBSP, are turned into a space before parsing. *)
Definition to_ascii_space (c : ascii) : ascii :=
  if ((code c =? 133) || (code c =? 160))%N then " "%char else c.

Fixpoint lstrip (l : list ascii) : list ascii :=
  match l with
  | c :: r => if is_c_space c then lstrip r else l
  | [] => []
  end.

Definition strip (l : list ascii) : list ascii :=
  rev (lstrip (rev (lstrip l))).

(** Underscores may stand only between two digits; they are removed
    before the number is read. [prev] is the previous character. *)
Fixpoint drop_underscores (prev : option ascii) (l : list ascii)
  : option (list ascii) :=
  match l with
  | [] =>
      match prev with
      | Some "_"%char => None
      | _ => Some []
      end
  | c :: r =>
      if Ascii.eqb c "_" then
        match prev with
        | Some p => if is_digit p then drop_underscores (Some c) r else None
        | None => None
        end
      else
        match prev with
        | Some "_"%char =>
            if is_digit c
            then option_map (cons c) (drop_underscores (Some c) r)
            else None
        | _ => option_map (cons c) (drop_underscores (Some c) r)
        end
  end.

Fixpoint span_digits (l : list ascii) : list ascii * list ascii :=
  match l with
  | c :: r =>
      if is_digit c
      then let '(d, rest) := span_digits r in (c :: d, rest)
      else ([], l)
  | [] => ([], [])
  end.

Definition digits_value (d : list ascii) : Z :=
  fold_left (fun acc c => 10 * acc + digit_value c) d 0.

Definition lower (c : ascii) : ascii :=
  if ((65 <=? code c) && (code c <=? 90))%N
  then ascii_of_N (code c + 32) else c.

Definition lower_string (l : list ascii) : string :=
  string_of_list_ascii (map lower l).

(** The literal that was read, before it is rounded. *)
Inductive literal :=
| LInf
| LNan
| LDec (mantissa : Z) (exponent : Z).   (* mantissa * 10 ^ exponent *)

Definition parse_sign (l : list ascii) : bool * list ascii :=
  match l with
  | "-"%char :: r => (true, r)
  | "+"%char :: r => (false, r)
  | _ => (false, l)
  end.

(** [("e" | "E") [sign] digitpart], or nothing, up to the end. *)
Definition parse_exponent (l : list ascii) : option Z :=
  match l with
  | [] => Some 0
  | c :: r =>
      if Ascii.eqb (lower c) "e" then
        let '(neg, r1) := parse_sign r in
        match span_digits r1 with
        | ((_ :: _) as d, []) =>
            Some (if neg then - digits_value d else digits_value d)
        | _ => None
        end
      else None
  end.

(** [[digitpart] "." digitpart | digitpart ["."]], then the exponent. *)
Definition parse_number (l : list ascii) : option literal :=
  let '(ip, r1) := span_digits l in
  match r1 with
  | "."%char :: r2 =>
      let '(fp, r3) := span_digits r2 in
      match ip, fp with
      | [], [] => None
      | _, _ =>
          match parse_exponent r3 with
          | Some e =>
              Some (LDec (digits_value (ip ++ fp))
                         (e - Z.of_nat (length fp)))
          | None => None
          end
      end
  | _ =>
      match ip with
      | [] => None
      | _ =>
          match parse_exponent r1 with
          | Some e => Some (LDec (digits_value ip) e)
          | None => None
          end
      end
  end.

Definition parse_abs (l : list ascii) : option literal :=
  let w := lower_string l in
  if String.eqb w "inf" || String.eqb w "infinity" then Some LInf
  else if String.eqb w "nan" then Some LNan
  else parse_number l.

(** The grammar of [float(str)]: sign and literal of an accepted string. *)
Definition parse (s : string) : option (bool * literal) :=
  let body := strip (map to_ascii_space (list_ascii_of_string s)) in
  let plain :=
    if existsb (Ascii.eqb "_") body
    then drop_underscores None body
    else Some body in
  match plain with
  | None => None
  | Some l =>
      let '(neg, r) := parse_sign l in
      match parse_abs r with
      | Some lit => Some (neg, lit)
      | None => None
      end
  end.

(** The binary64 value nearest to [num / den] (ties to even), signed. *)
Definition round_ratio (neg : bool) (num den : positive) : spec_float :=
  SFdiv prec emax (S754_finite neg num 0) (S754_finite false den 0).

Definition round_literal (neg : bool) (lit : literal) : spec_float :=
  match lit with
  | LInf => S754_infinity neg
  | LNan => S754_nan
  | LDec m e =>
      match m with
      | Zpos p =>
          if 0 <=? e
          then round_ratio neg (p * Z.to_pos (10 ^ e)) 1
          else round_ratio neg p (Z.to_pos (10 ^ (- e)))
      | _ => S754_zero neg
      end
  end.

(** [float(s)] for a string: [None] stands for [ValueError]. *)
Definition float_of_str (s : string) : option spec_float :=
  match parse s with
  | Some (neg, lit) => Some (round_literal neg lit)
  | None => None
  end.

(** An [int] operand of a float operation is converted first. *)
Definition float_of_int (n : Z) : spec_float :=
  binary_normalize prec emax n 0 false.

Definition mul (x y : spec_float) : spec_float := SFmul prec emax x y.
Definition add (x y : spec_float) : spec_float := SFadd prec emax x y.

(** [int(x)]: towards zero; NaN and the infinities raise. *)
Definition int_of_float (x : spec_float) : outcome Z :=
  match x with
  | S754_nan => Raise (ValueError "cannot convert float NaN to integer")
  | S754_infinity _ => Raise OverflowError
  | S754_zero _ => Ok 0
  | S754_finite neg m e =>
      let a := if 0 <=? e then Z.shiftl (Zpos m) e
               else Z.shiftr (Zpos m) (- e) in
      Ok (if neg then - a else a)
  end.

(** [a / b] on two [int]s, [b > 0]: the nearest float, or
    [OverflowError] when it is out of range. *)
Definition int_truediv (a : Z) (b : positive) : outcome spec_float :=
  match a with
  | Z0 => Ok (S754_zero false)
  | Zpos p | Zneg p =>
      match round_ratio (a <? 0) p b with
      | S754_infinity _ => Raise OverflowError
      | q => Ok q
      end
  end.

Definition sign_bit (x : spec_float) : bool :=
  match x with
  | S754_zero s | S754_infinity s | S754_finite s _ _ => s
  | S754_nan => false
  end.

Definition is_finite (x : spec_float) : bool :=
  match x with
  | S754_zero _ | S754_finite _ _ _ => true
  | _ => false
  end.

End PyFloat.

(* ===================================================================== *)
(** * The world: what the program observes and what it leaves behind *)
(* ===================================================================== *)

(** [requests.Response]: the status, the body as text and, when the body
    is JSON, its decoded form ([None]: [resp.json()] raises). *)
Record Response := {
  status_code : Z;
  text : string;
  body : option json
}.

(** What [console.print] is handed: the per-payment table, the batch
    tree. Rendering is left to the console. *)
Inductive printable :=
| Table (index : string) (rise_id : string) (first last : json)
        (usd : spec_float)
| Tree (root : string) (leaves : list (nat * string * spec_float)).

(** What the signing agent answers: the provider's error (a [ValueError]
    in web3) or the result. *)
Inductive rpc_reply :=
| RpcError (msg : string)
| RpcResult (value : string).

Inductive event :=
| Log (line : string)
| Print (p : printable)
| LogTotal (usd : spec_float)
| Prompt (question : string) (answer : bool)
| Http (m : method) (ep : endpoint) (authorization : option string)
       (params : option json) (payload : option json)
       (reply : option Response)
| RpcAccounts (accounts : list string)
| RpcSign (account : string) (msg : string) (reply : rpc_reply)
| RpcSignTyped (account : string) (msg : json) (reply : rpc_reply)
| RandBits (raw : Z).

(** The surroundings answer as a function of everything that happened so
    far. [http] gives [None] when the transport itself fails. *)
Record env := {
  http : list event -> method -> endpoint -> option string -> option json
         -> option json -> option Response;
  eth_accounts : list event -> list string;
  eth_sign : list event -> string -> string -> rpc_reply;
  eth_signTypedData_v4 : list event -> string -> json -> rpc_reply;
  ask : list event -> string -> bool;
  genrand_uint32 : list event -> Z
}.

(** The mutable state of one run: the trace, the session token and the
    memoised attributes of the signer and of the client. *)
Record world := {
  trace : list event;
  token : string;
  account_cache : option string;
  payees_cache : option (list json);
  allowed_recipients_cache : option (list json);
  get_payee_cache : list (string * json)
}.

Definition emit (ev : event) (w : world) : world :=
  {| trace := trace w ++ [ev];
     token := token w;
     account_cache := account_cache w;
     payees_cache := payees_cache w;
     allowed_recipients_cache := allowed_recipients_cache w;
     get_payee_cache := get_payee_cache w |}.

Definition M (A : Type) : Type := env -> world -> outcome A * world.

Definition ret {A} (a : A) : M A := fun _ w => (Ok a, w).

Definition bind {A B} (m : M A) (k : A -> M B) : M B :=
  fun E w =>
    match m E w with
    | (Ok a, w') => k a E w'
    | (Exit c, w') => (Exit c, w')
    | (Raise e, w') => (Raise e, w')
    end.

Definition sys_exit {A} (c : Z) : M A := fun _ w => (Exit c, w).
Definition raise {A} (e : exn) : M A := fun _ w => (Raise e, w).
Definition lift {A} (o : outcome A) : M A := fun _ w => (o, w).
Definition tell (ev : event) : M unit := fun _ w => (Ok tt, emit ev w).
Definition observe {A} (f : env -> list event -> A) : M A :=
  fun E w => (Ok (f E (trace w)), w).
Definition get_world : M world := fun _ w => (Ok w, w).
Definition put_world (w : world) : M unit := fun _ _ => (Ok tt, w).

Declare Scope py_scope.
Delimit Scope py_scope with py.
Notation "x <- m ;; k" := (bind m (fun x => k))
  (at level 100, m at next level, right associativity) : py_scope.
Notation "m ;;; k" := (bind m (fun _ => k))
  (at level 100, right associativity) : py_scope.
Open Scope py_scope.

(** [for x in xs: body x] *)
Fixpoint for_each {A} (xs : list A) (body : A -> M unit) : M unit :=
  match xs with
  | [] => ret tt
  | x :: rest => body x ;;; for_each rest body
  end.

(** [[f x for x in xs]], left to right. *)
Fixpoint map_m {A B} (f : A -> M B) (xs : list A) : M (list B) :=
  match xs with
  | [] => ret []
  | x :: rest => y <- f x ;; ys <- map_m f rest ;; ret (y :: ys)
  end.

(* ===================================================================== *)
(** * src/log.py *)
(* ===================================================================== *)

Module log.

Definition error (text : string) : M unit :=
  tell (Log ("[error][error][/error] " ++ text)).

Definition info (text : string) : M unit :=
  tell (Log ("[info][info][/info] " ++ text)).

Definition okay (text : string) : M unit :=
  tell (Log ("[okay][okay][/okay] " ++ text)).

Definition warn (text : string) : M unit :=
  tell (Log ("[warn][warn][/warn] " ++ text)).

(** [Prompt.ask(text, choices=["y", "n"]) == "y"] *)
Definition prompt_yes_no (text : string) : M bool :=
  a <- observe (fun E t => ask E t text) ;;
  tell (Prompt text a) ;;;
  ret a.

Definition console_print (p : printable) : M unit := tell (Print p).

End log.

(* ===================================================================== *)
(** * src/rise_client.py: the Payment record *)
(* ===================================================================== *)

Definition USDC_DECIMALS : Z := 6.

(** [random.getrandbits(k)] for [k <= 32]: the top [k] bits of one 32-bit
    word of the generator. *)
Definition getrandbits (k : Z) : M Z :=
  raw <- observe (fun E t => genrand_uint32 E t) ;;
  tell (RandBits raw) ;;;
  ret (Z.shiftr (raw mod 2 ^ 32) (32 - k)).

Record Payment := {
  recipient : string;
  amount : Z;
  salt : option Z
}.

Definition set_salt (p : Payment) (s : option Z) : Payment :=
  {| recipient := recipient p; amount := amount p; salt := s |}.

(** [Payment.__post_init__] *)
Definition post_init (self : Payment) : M Payment :=
  r <- getrandbits 32 ;;
  ret (set_salt self (Some r)).

(** [Payment(recipient, amount, salt)]: the generated [__init__] stores
    the three fields, then [__post_init__] runs. *)
Definition new_Payment (recipient : string) (amount : Z) (salt : option Z)
  : M Payment :=
  post_init {| recipient := recipient; amount := amount; salt := salt |}.

(** [Payment.usd_amount]: [self.amount / 10**USDC_DECIMALS] *)
Definition usd_amount (p : Payment) : outcome spec_float :=
  PyFloat.int_truediv (amount p) (Z.to_pos (10 ^ USDC_DECIMALS)).

(* ===================================================================== *)
(** * src/datasource.py *)
(* ===================================================================== *)

Module datasource.

(** ** The pattern [0x[0-9a-fA-F]{40}] and [findall] *)

Definition is_hex (c : ascii) : bool :=
  let n := N_of_ascii c in
  (((48 <=? n) && (n <=? 57)) || ((97 <=? n) && (n <=? 102))
   || ((65 <=? n) && (n <=? 70)))%N.

(** The first [n] characters of [s] when they are all hex digits. *)
Fixpoint hex_run (n : nat) (s : string) : option string :=
  match n with
  | O => Some ""
  | S n' =>
      match s with
      | String c r =>
          if is_hex c then option_map (String c) (hex_run n' r) else None
      | EmptyString => None
      end
  end.

(** The match of the pattern that starts at the head of [s]. *)
Definition match_here (s : string) : option string :=
  match s with
  | String "0" (String "x" r) =>
      option_map (fun h => String "0" (String "x" h)) (hex_run 40 r)
  | _ => None
  end.

(** [is_address.findall(text)]: scan from the left; after a match the
    scan resumes behind it. [skip] counts the characters of the last
    match still to pass over. *)
Fixpoint findall_from (skip : nat) (s : string) : list string :=
  match s with
  | EmptyString => []
  | String c r =>
      match skip with
      | S k => findall_from k r
      | O =>
          match match_here s with
          | Some m => m :: findall_from 41 r
          | None => findall_from 0 r
          end
      end
  end.

Definition findall (text : string) : list string := findall_from 0 text.

(** ** [find_rise_id] *)
Definition find_rise_id (text : pyval) : M string :=
  match text with
  | PNone => raise TypeError
  | PStr text =>
      match findall text with
      | [] =>
          log.error ("RiseId not found in [bold]" ++ text ++ "[/bold]") ;;;
          sys_exit 1
      | [m] => ret m
      | _ :: _ :: _ =>
          log.error ("Multiple RiseIds found in [bold]" ++ text ++ "[/bold]") ;;;
          sys_exit 1
      end
  end.

(** ** [payment_amount] *)
Definition payment_amount (amount : pyval) : M Z :=
  match amount with
  | PNone => raise TypeError
  | PStr amount =>
      match PyFloat.float_of_str amount with
      | None =>
          log.error ("Invalid amount: [bold]" ++ amount ++ "[/bold]") ;;;
          sys_exit 1
      | Some _float_amount =>
          lift (PyFloat.int_of_float
                  (PyFloat.mul _float_amount
                     (PyFloat.float_of_int (10 ^ USDC_DECIMALS))))
      end
  end.

(** [str(v)] inside the f-string of [_sanity_checks]. *)
Definition py_str (v : pyval) : string :=
  match v with PNone => "None" | PStr s => s end.

(** [row[key]] *)
Definition getitem (row : gmap string pyval) (key : string) : M pyval :=
  match row !! key with
  | Some v => ret v
  | None => raise (KeyError key)
  end.

(** [v == s] for a cell and a string. *)
Definition eq_str (v : pyval) (s : string) : bool :=
  match v with
  | PStr t => String.eqb t s
  | PNone => false
  end.

(** ** [_sanity_checks] *)
Definition _sanity_checks (row : gmap string pyval) : M unit :=
  tok <- getitem row "outgoing_token" ;;
  if negb (eq_str tok "DAI") then
    tok' <- getitem row "outgoing_token" ;;
    log.error ("Unsupported token: [bold]" ++ py_str tok' ++ "[/bold]") ;;;
    sys_exit 1
  else ret tt.

(** ** [payments_from_csv], from the rows [csv.DictReader] yields on *)
Definition payment_of_row (row : gmap string pyval) : M Payment :=
  _sanity_checks row ;;;
  a <- getitem row "outgoing_amount" ;;
  amount <- payment_amount a ;;
  d <- getitem row "Description" ;;
  recipient <- find_rise_id d ;;
  new_Payment recipient amount None.

Definition payments_from_csv (rows : list (gmap string pyval))
  : M (list Payment) :=
  map_m payment_of_row rows.

End datasource.

(* ===================================================================== *)
(** * Python operations on decoded JSON *)
(* ===================================================================== *)

Fixpoint assoc (key : string) (members : list (string * json)) : option json :=
  match members with
  | [] => None
  | (k, v) :: rest => if String.eqb k key then Some v else assoc key rest
  end.

(** [v[key]] with a string key. *)
Definition py_getitem (v : json) (key : string) : outcome json :=
  match v with
  | JObj members =>
      match assoc key members with
      | Some x => Ok x
      | None => Raise (KeyError key)
      end
  | _ => Raise TypeError
  end.

Fixpoint chars (s : string) : list json :=
  match s with
  | EmptyString => []
  | String c r => JStr (String c EmptyString) :: chars r
  end.

(** What [for x in v] and [list.extend(v)] run over. *)
Definition py_iter (v : json) : outcome (list json) :=
  match v with
  | JList items => Ok items
  | JObj members => Ok (map (fun kv => JStr (fst kv)) members)
  | JStr s => Ok (chars s)
  | _ => Raise TypeError
  end.

(** [v == s] for a [str] on the right. *)
Definition py_eq_str (v : json) (s : string) : bool :=
  match v with
  | JStr t => String.eqb t s
  | _ => false
  end.

(** [s in l] for a [str] and a list. *)
Definition py_in (s : string) (l : list json) : bool :=
  existsb (fun v => py_eq_str v s) l.

(** [str(n)] for an [int]. *)
Definition str_of_int (n : Z) : string :=
  DecimalString.NilZero.string_of_int (Z.to_int n).

(** [str.lower] on code points below 256. *)
Definition py_lower_char (c : ascii) : ascii :=
  let n := N_of_ascii c in
  if (((65 <=? n) && (n <=? 90))
      || ((192 <=? n) && (n <=? 222) && negb (n =? 215)))%N
  then ascii_of_N (n + 32) else c.

Fixpoint py_lower (s : string) : string :=
  match s with
  | EmptyString => EmptyString
  | String c r => String (py_lower_char c) (py_lower r)
  end.

(* ===================================================================== *)
(** * src/frame_signer.py *)
(* ===================================================================== *)

Module FrameSigner.

Definition set_account_cache (a : string) : M unit :=
  fun _ w =>
    (Ok tt,
     {| trace := trace w; token := token w;
        account_cache := Some a;
        payees_cache := payees_cache w;
        allowed_recipients_cache := allowed_recipients_cache w;
        get_payee_cache := get_payee_cache w |}).

(** [self.w3.eth.accounts] *)
Definition w3_eth_accounts : M (list string) :=
  accs <- observe (fun E t => eth_accounts E t) ;;
  tell (RpcAccounts accs) ;;;
  ret accs.

(** [account], a [cached_property]. *)
Definition account : M string :=
  w <- get_world ;;
  match account_cache w with
  | Some a => ret a
  | None =>
      accs <- w3_eth_accounts ;;
      match accs with
      | _ :: _ =>
          accs' <- w3_eth_accounts ;;
          match accs' with
          | a :: _ => set_account_cache a ;;; ret a
          | [] => raise IndexError
          end
      | [] =>
          log.error "Expected account to be unlocked" ;;;
          sys_exit 1
      end
  end.

Definition sign (msg : string) : M string :=
  acc <- account ;;
  r <- observe (fun E t => eth_sign E t acc msg) ;;
  tell (RpcSign acc msg r) ;;;
  match r with
  | RpcResult sig => ret sig
  | RpcError ex =>
      log.error ("Error signing message: " ++ ex) ;;;
      sys_exit 1
  end.

Definition sign_typed (msg : json) : M string :=
  acc <- account ;;
  r <- observe (fun E t => eth_signTypedData_v4 E t acc msg) ;;
  tell (RpcSignTyped acc msg r) ;;;
  match r with
  | RpcResult sig => ret sig
  | RpcError ex =>
      log.error ("Error signing message: " ++ ex) ;;;
      sys_exit 1
  end.

End FrameSigner.

(* ===================================================================== *)
(** * src/rise_client.py: the API client *)
(* ===================================================================== *)

Module RiseAPI.

Definition set_token (t : string) : M unit :=
  fun _ w =>
    (Ok tt,
     {| trace := trace w; token := t;
        account_cache := account_cache w;
        payees_cache := payees_cache w;
        allowed_recipients_cache := allowed_recipients_cache w;
        get_payee_cache := get_payee_cache w |}).

Definition set_payees_cache (l : list json) : M unit :=
  fun _ w =>
    (Ok tt,
     {| trace := trace w; token := token w;
        account_cache := account_cache w;
        payees_cache := Some l;
        allowed_recipients_cache := allowed_recipients_cache w;
        get_payee_cache := get_payee_cache w |}).

Definition set_allowed_recipients_cache (l : list json) : M unit :=
  fun _ w =>
    (Ok tt,
     {| trace := trace w; token := token w;
        account_cache := account_cache w;
        payees_cache := payees_cache w;
        allowed_recipients_cache := Some l;
        get_payee_cache := get_payee_cache w |}).

Definition remember_payee (rise_id : string) (payee : json) : M unit :=
  fun _ w =>
    (Ok tt,
     {| trace := trace w; token := token w;
        account_cache := account_cache w;
        payees_cache := payees_cache w;
        allowed_recipients_cache := allowed_recipients_cache w;
        get_payee_cache := (rise_id, payee) :: get_payee_cache w |}).

(** [_auth_headers] *)
Definition _auth_headers : M string :=
  w <- get_world ;;
  ret ("Bearer " ++ token w).

(** [_raise_for_status]: an error status raises; the error body's
    [message] is added when it can be read. *)
Definition _raise_for_status (response : Response) (m : method)
  (ep : endpoint) : M unit :=
  if (400 <=? status_code response) && (status_code response <? 600) then
    match body response with
    | None => raise (HttpFailure m ep None)
    | Some j =>
        match py_getitem j "message" with
        | Ok error => raise (HttpFailure m ep (Some error))
        | Raise (KeyError _) => raise (HttpFailure m ep None)
        | Raise e => raise e
        | Exit c => sys_exit c
        end
    end
  else ret tt.

(** [_request] *)
Definition _request (m : method) (ep : endpoint) (auth : bool)
  (params payload : option json) : M json :=
  authorization <-
    (if auth then (h <- _auth_headers ;; ret (Some h)) else ret None) ;;
  resp <- observe (fun E t => http E t m ep authorization params payload) ;;
  tell (Http m ep authorization params payload resp) ;;;
  match resp with
  | None => raise RequestException
  | Some resp =>
      _raise_for_status resp m ep ;;;
      match body resp with
      | None => raise (DecodeFailure (text resp))
      | Some j =>
          match py_getitem j "data" with
          | Ok data => ret data
          | Raise (KeyError _) => raise (NoDataField j)
          | Raise e => raise e
          | Exit c => sys_exit c
          end
      end
  end.

Definition get_teams : M json :=
  _request GET TEAM_ENDPOINT true None None.

Definition get_team_members (team_id : json) : M json :=
  _request GET (TEAM_TALENT team_id) true None None.

(** The loop of [payees]: the members of every team, appended. *)
Fixpoint collect_payees (teams : list json) (payees : list json)
  : M (list json) :=
  match teams with
  | [] => ret payees
  | team :: rest =>
      team_id <- lift (py_getitem team "id") ;;
      members <- get_team_members team_id ;;
      more <- lift (py_iter members) ;;
      collect_payees rest (payees ++ more)
  end.

(** [payees], a [cached_property]. *)
Definition payees : M (list json) :=
  w <- get_world ;;
  match payees_cache w with
  | Some l => ret l
  | None =>
      ts <- get_teams ;;
      teams <- lift (py_iter ts) ;;
      l <- collect_payees teams [] ;;
      set_payees_cache l ;;;
      ret l
  end.

(** [allowed_recipients], a [cached_property]. *)
Definition allowed_recipients : M (list json) :=
  w <- get_world ;;
  match allowed_recipients_cache w with
  | Some l => ret l
  | None =>
      ps <- payees ;;
      l <- map_m (fun p => lift (py_getitem p "riseId")) ps ;;
      set_allowed_recipients_cache l ;;;
      ret l
  end.

Fixpoint find_payee (rise_id : string) (ps : list json) : M json :=
  match ps with
  | [] => raise (ValueError ("Payee with rise id " ++ rise_id ++ " not found"))
  | payee :: rest =>
      r <- lift (py_getitem payee "riseId") ;;
      if py_eq_str r rise_id then ret payee else find_payee rise_id rest
  end.

Fixpoint cached (rise_id : string) (c : list (string * json)) : option json :=
  match c with
  | [] => None
  | (k, v) :: rest => if String.eqb k rise_id then Some v else cached rise_id rest
  end.

(** [get_payee], under [functools.cache]. *)
Definition get_payee (rise_id : string) : M json :=
  w <- get_world ;;
  match cached rise_id (get_payee_cache w) with
  | Some payee => ret payee
  | None =>
      ps <- payees ;;
      payee <- find_payee rise_id ps ;;
      remember_payee rise_id payee ;;;
      ret payee
  end.

(** [dataclasses.asdict(p)] *)
Definition asdict (p : Payment) : json :=
  JObj [("recipient", JStr (recipient p));
        ("amount", JInt (amount p));
        ("salt", match salt p with Some s => JInt s | None => JNull end)].

(** [sum(p.amount for p in payments)] *)
Definition total_amount (payments : list Payment) : Z :=
  fold_left (fun acc p => acc + amount p) payments 0.

(** [_get_batch_payment_message] *)
Definition _get_batch_payment_message (rise_id : string)
  (payments : list Payment) : M json :=
  wallet <- FrameSigner.account ;;
  _request PUT BATCH_PAY true None
    (Some (JObj [("wallet", JStr wallet);
                 ("rise_id", JStr rise_id);
                 ("total_amount", JStr (str_of_int (total_amount payments)));
                 ("payments", JList (map asdict payments))])).

(** [_send_batch_payment] *)
Definition _send_batch_payment (rise_id : string)
  (payments : list Payment) (request : json) (signature : string) : M unit :=
  wallet <- FrameSigner.account ;;
  _request POST BATCH_PAY true None
    (Some (JObj [("wallet", JStr wallet);
                 ("rise_id", JStr rise_id);
                 ("total_amount", JStr (str_of_int (total_amount payments)));
                 ("payments", JList (map asdict payments));
                 ("request", request);
                 ("signature", JStr signature)])) ;;;
  ret tt.

(** [batch_payment] *)
Definition batch_payment (rise_id : string) (payments : list Payment)
  : M unit :=
  request <- _get_batch_payment_message rise_id payments ;;
  log.info "Sign transaction to send batch payment" ;;;
  signature <- FrameSigner.sign_typed request ;;
  message <- lift (py_getitem request "message") ;;
  _send_batch_payment rise_id payments message signature.

(** [_get_sign_message] *)
Definition _get_sign_message : M json :=
  wallet <- FrameSigner.account ;;
  data <- _request GET AUTH_ENDPOINT false
            (Some (JObj [("wallet", JStr wallet)])) None ;;
  lift (py_getitem data "message").

(** [_get_token] *)
Definition _get_token (signed_msg : json) (signature : string) : M json :=
  wallet <- FrameSigner.account ;;
  data <- _request POST AUTH_ENDPOINT false None
            (Some (JObj [("wallet", JStr wallet);
                         ("message", signed_msg);
                         ("signature", JStr signature)])) ;;
  lift (py_getitem data "token").

(** [_auth]. The challenge is signed as text and the token is spliced
    into a header, so both are taken to be strings as the annotations
    say; another JSON value is a [TypeError] here. *)
Definition _auth : M unit :=
  msg <- _get_sign_message ;;
  log.info "Sign message to sign in" ;;;
  match msg with
  | JStr m =>
      sig <- FrameSigner.sign m ;;
      tok <- _get_token msg sig ;;
      match tok with
      | JStr t => set_token t
      | _ => raise TypeError
      end
  | _ => raise TypeError
  end.

End RiseAPI.

(* ===================================================================== *)
(** * src/main.py: the payment loop *)
(* ===================================================================== *)

Module main.

(** The body of [for i, p in enumerate(payments)]; [tree] collects the
    leaves added so far. *)
Fixpoint confirm_each (i : nat) (payments : list Payment)
  (tree : list (nat * string * spec_float))
  : M (list (nat * string * spec_float)) :=
  match payments with
  | [] => ret tree
  | p :: rest =>
      allowed <- RiseAPI.allowed_recipients ;;
      if negb (py_in (recipient p) allowed) then
        raise (RuntimeError ("Recipient " ++ recipient p ++ " is not a payee"))
      else
        payee <- RiseAPI.get_payee (recipient p) ;;
        first <- lift (py_getitem payee "firstname") ;;
        last <- lift (py_getitem payee "lastname") ;;
        usd <- lift (usd_amount p) ;;
        log.console_print
          (Table (str_of_int (Z.of_nat i + 1)) (recipient p) first last usd) ;;;
        yes <- log.prompt_yes_no "Confirm payment?" ;;
        if negb yes then
          log.error "Payment cancelled by user" ;;;
          sys_exit 1
        else
          usd' <- lift (usd_amount p) ;;
          confirm_each (S i) rest (tree ++ [(S i, recipient p, usd')])
  end.

(** [sum(p.usd_amount for p in payments)]: an [int] until the first
    summand, a [float] from then on. *)
Fixpoint usd_total (payments : list Payment) (acc : option spec_float)
  : outcome (option spec_float) :=
  match payments with
  | [] => Ok acc
  | p :: rest =>
      match usd_amount p with
      | Ok x =>
          usd_total rest
            (Some (match acc with
                   | None => PyFloat.add (PyFloat.float_of_int 0) x
                   | Some a => PyFloat.add a x
                   end))
      | Exit c => Exit c
      | Raise e => Raise e
      end
  end.

(** From [tree = Tree(entity, ...)] to [log.okay("Done!")]. *)
Definition confirm_and_pay (entity : string) (payments : list Payment)
  : M unit :=
  tree <- confirm_each 0 payments [] ;;
  log.warn "Check the batch summary:" ;;;
  log.console_print (Tree entity tree) ;;;
  total <- lift (usd_total payments None) ;;
  tell (LogTotal (match total with
                  | Some t => t
                  | None => PyFloat.float_of_int 0
                  end)) ;;;
  yes <- log.prompt_yes_no "Confirm payment?" ;;
  if negb yes then
    log.error "Payment cancelled by user" ;;;
    sys_exit 1
  else
    RiseAPI.batch_payment entity payments ;;;
    let link := "https://arbiscan.io/address/" ++ py_lower entity ++ "#tokentxns" in
    log.info ("Check explorer for the transaction: [link=" ++ link ++ "]"
              ++ link ++ "[/link]") ;;;
    log.okay "Done!".

(** From [api = RiseAPI(entity, signer)] on, for the rows of the file. *)
Definition run (entity filename : string) (rows : list (gmap string pyval))
  : M unit :=
  RiseAPI._auth ;;;
  log.info ("Using payments file [magenta]" ++ filename) ;;;
  payments <- datasource.payments_from_csv rows ;;
  confirm_and_pay entity payments.

End main.

(* ===================================================================== *)
(** * Vocabulary of the statements *)
(* ===================================================================== *)

(** Every character of [s] is a hexadecimal digit. *)
Fixpoint all_hex (s : string) : bool :=
  match s with
  | EmptyString => true
  | String c r => datasource.is_hex c && all_hex r
  end.

(** [m] is one match of [0x[0-9a-fA-F]{40}]. *)
Definition is_address (m : string) : Prop :=
  exists h, m = String "0" (String "x" h)
            /\ String.length h = 40%nat /\ all_hex h = true.

(** The pattern matches in [text] at the position behind [pre]. *)
Definition occurs_behind (pre text : string) : Prop :=
  exists m post, is_address m /\ text = pre ++ m ++ post.

(** No match of the pattern starts at a position of [pre] in [pre ++ rest]. *)
Fixpoint no_match_starts_in (pre rest : string) : bool :=
  match pre with
  | EmptyString => true
  | String c p =>
      match datasource.match_here (pre ++ rest) with
      | Some _ => false
      | None => no_match_starts_in p rest
      end
  end.

(** The lines [find_rise_id] logs before it exits. *)
Definition not_found_line (text : string) : string :=
  "[error][error][/error] RiseId not found in [bold]" ++ text ++ "[/bold]".

Definition multiple_line (text : string) : string :=
  "[error][error][/error] Multiple RiseIds found in [bold]" ++ text ++ "[/bold]".

Definition invalid_amount_line (amount : string) : string :=
  "[error][error][/error] Invalid amount: [bold]" ++ amount ++ "[/bold]".

(** The binary64 value of [10**USDC_DECIMALS] as a float operand. *)
Definition million : spec_float := PyFloat.float_of_int (10 ^ USDC_DECIMALS).

(** [a] is the finite float [x] cut off towards zero: with [v] the
    magnitude of [a], [v <= |x| < v + 1]. *)
Definition truncation_of (x : spec_float) (a : Z) : Prop :=
  match x with
  | S754_zero _ => a = 0
  | S754_finite neg m e =>
      exists v, a = (if neg then - v else v)
                /\ v * 2 ^ Z.max 0 (- e) <= Zpos m * 2 ^ Z.max 0 e
                   < (v + 1) * 2 ^ Z.max 0 (- e)
  | _ => False
  end.





(** A row the ingestor accepts: the token is DAI, the amount reads as a
    float whose product with [10^6] is finite, the description holds one
    match of the address pattern. *)
Definition row_accepted (row : gmap string pyval) : bool :=
  match row !! "outgoing_token", row !! "outgoing_amount", row !! "Description" with
  | Some tok, Some (PStr a), Some (PStr d) =>
      datasource.eq_str tok "DAI"
      && match PyFloat.float_of_str a with
         | Some f => PyFloat.is_finite (PyFloat.mul f million)
         | None => false
         end
      && match datasource.findall d with [_] => true | _ => false end
  | _, _, _ => false
  end.

(** The row declares the supported token. *)
Definition declares_dai (row : gmap string pyval) : bool :=
  match row !! "outgoing_token" with
  | Some tok => datasource.eq_str tok "DAI"
  | None => false
  end.

(** Surroundings in which nothing answers, and a fresh run. *)
Definition silent : env :=
  {| http := fun _ _ _ _ _ _ => None;
     eth_accounts := fun _ => [];
     eth_sign := fun _ _ _ => RpcError "";
     eth_signTypedData_v4 := fun _ _ _ => RpcError "";
     ask := fun _ _ => false;
     genrand_uint32 := fun _ => 0 |}.

Definition fresh_world : world :=
  {| trace := []; token := ""; account_cache := None; payees_cache := None;
     allowed_recipients_cache := None; get_payee_cache := [] |}.

(** A row of the payments file with the three columns the code reads. *)
Definition csv_row (amount token description : string) : gmap string pyval :=
  <["outgoing_amount" := PStr amount]>
    (<["outgoing_token" := PStr token]>
       (<["Description" := PStr description]> ∅)).

(** An HTTP exchange with the batch-pay endpoint. *)
Definition is_batch_call (ev : event) : bool :=
  match ev with
  | Http _ BATCH_PAY _ _ _ _ => true
  | _ => false
  end.

(** The recipient of [p] is not in the directory [allowed]. *)
Definition unlisted (allowed : list json) (p : Payment) : bool :=
  negb (py_in (recipient p) allowed).

(** Neither a batch-pay exchange nor a draw from the random generator. *)
Definition quiet (ev : event) : bool :=
  match ev with
  | Http _ BATCH_PAY _ _ _ _ => false
  | RandBits _ => false
  | _ => true
  end.

(** No draw from the random generator, and a batch-pay exchange only with
    the given payments, serialised field by field, in its body. *)
Definition carries (payments : list Payment) (ev : event) : Prop :=
  match ev with
  | RandBits _ => False
  | Http _ BATCH_PAY _ _ payload _ =>
      exists b, payload = Some b
                /\ py_getitem b "payments" = Ok (JList (map RiseAPI.asdict payments))
  | _ => True
  end.

(** From [w] to [w']: the trace grew by events that satisfy [P], and a
    memoised [allowed_recipients] stayed what it was. *)
Definition extends (P : event -> Prop) (w w' : world) : Prop :=
  (exists evs, trace w' = (trace w ++ evs)%list /\ Forall P evs)
  /\ (forall l, allowed_recipients_cache w = Some l ->
                allowed_recipients_cache w' = Some l).

(** Every run of [m] takes the world along [R]. *)
Definition steps (R : world -> world -> Prop) {A} (m : M A) : Prop :=
  forall E w, R w (snd (m E w)).

(** The payload [_request] returns for a reply: the [data] member of a
    JSON body under a status that is no client or server error. *)
Definition reply_data (resp : Response) : option json :=
  if (400 <=? status_code resp) && (status_code resp <? 600) then None
  else
    match body resp with
    | Some j =>
        match py_getitem j "data" with
        | Ok d => Some d
        | _ => None
        end
    | None => None
    end.

(** The fields both batch-pay bodies share. *)
Definition batch_fields (wallet rise_id : string) (payments : list Payment)
  : list (string * json) :=
  [("wallet", JStr wallet);
   ("rise_id", JStr rise_id);
   ("total_amount", JStr (str_of_int (RiseAPI.total_amount payments)));
   ("payments", JList (map RiseAPI.asdict payments))].

(** ** A fixture: two teams, three members, one typed-data reply *)

Definition member (id first last rise : string) : json :=
  JObj [("id", JStr id); ("alias", JStr first); ("firstname", JStr first);
        ("middlename", JStr ""); ("lastname", JStr last);
        ("riseId", JStr rise)].

Definition alice : json :=
  member "m1" "Alice" "Ames" "0x00000000000000000000000000000000000000a1".
Definition bob : json :=
  member "m2" "Bob" "Beck" "0x00000000000000000000000000000000000000b2".

Definition fixture_teams : list json :=
  [JObj [("id", JStr "t1"); ("name", JStr "core"); ("riseId", JStr "0xt1")];
   JObj [("id", JStr "t2"); ("name", JStr "ops"); ("riseId", JStr "0xt2")]].

Definition fixture_members (team_id : json) : list json :=
  match team_id with
  | JStr t =>
      if String.eqb t "t1" then [alice; bob]
      else if String.eqb t "t2" then [bob]
      else []
  | _ => []
  end.

Definition fixture_rise_ids (team_id : json) : list json :=
  match team_id with
  | JStr t =>
      if String.eqb t "t1"
      then [JStr "0x00000000000000000000000000000000000000a1";
            JStr "0x00000000000000000000000000000000000000b2"]
      else if String.eqb t "t2"
      then [JStr "0x00000000000000000000000000000000000000b2"]
      else []
  | _ => []
  end.

Definition fixture_message : json :=
  JObj [("payer", JStr "0xEntity"); ("nonce", JInt 1)].

Definition fixture_typed_data : json :=
  JObj [("types", JObj [("EIP712Domain", JList [])]);
        ("primaryType", JStr "BatchPay");
        ("domain", JObj [("name", JStr "Rise")]);
        ("message", fixture_message)].

Definition fixture : env :=
  {| http := fun _ m ep _ _ _ =>
       match m, ep with
       | GET, TEAM_ENDPOINT =>
           Some {| status_code := 200; text := "";
                   body := Some (JObj [("data", JList fixture_teams)]) |}
       | GET, TEAM_TALENT id =>
           Some {| status_code := 200; text := "";
                   body := Some (JObj [("data", JList (fixture_members id))]) |}
       | PUT, BATCH_PAY =>
           Some {| status_code := 200; text := "";
                   body := Some (JObj [("data", fixture_typed_data)]) |}
       | POST, BATCH_PAY =>
           Some {| status_code := 200; text := "";
                   body := Some (JObj [("data", JNull)]) |}
       | _, _ => None
       end;
     eth_accounts := fun _ => ["0xWallet"];
     eth_sign := fun _ _ _ => RpcResult "0xsigned";
     eth_signTypedData_v4 := fun _ _ _ => RpcResult "0xsigned712";
     ask := fun _ _ => true;
     genrand_uint32 := fun _ => 7 |}.

(** The world once the client has signed in. *)
Definition signed_in : world :=
  {| trace := []; token := "t0k3n"; account_cache := Some "0xWallet";
     payees_cache := None; allowed_recipients_cache := None;
     get_payee_cache := [] |}.


(* ===================================================================== *)
(** * src/frame_signer.py: reaching the signing agent *)
(* ===================================================================== *)

Module FrameConn.

(** [_establish_conn_to_frame]: [is_connected] is what [p.isConnected()]
    answers after the events so far. The function calls itself for as long
    as the agent is away and the operator asks to retry; [fuel] bounds the
    number of checks and [None] says that the bound was reached. *)
Fixpoint _establish_conn_to_frame (is_connected : list event -> bool)
  (fuel : nat) : M (option unit) :=
  match fuel with
  | O => ret None
  | S fuel' =>
      up <- observe (fun _ t => is_connected t) ;;
      if negb up then
        log.warn "Frame connection is not established" ;;;
        again <- log.prompt_yes_no "Retry?" ;;
        if again then _establish_conn_to_frame is_connected fuel'
        else
          log.warn "Script aborted" ;;;
          sys_exit 1
      else ret (Some tt)
  end.

End FrameConn.

(* ===================================================================== *)
(** * src/main.py: configuration and start-up *)
(* ===================================================================== *)

Module startup.

(** [Config.__annotations__]: the keys of the configuration. *)
Definition annotations : list string := ["ENTITY_RISE_ID"].

(** The second loop of [read_envs]: every annotated key is copied, a
    missing one raises. *)
Fixpoint fill (keys : list string) (config_ res : gmap string string)
  : outcome (gmap string string) :=
  match keys with
  | [] => Ok res
  | key :: rest =>
      match config_ !! key with
      | None => Raise (RuntimeError ("Required variable=" ++ key ++ " not found"))
      | Some v => fill rest config_ (<[key := v]> res)
      end
  end.

(** [read_envs], on a copy of [os.environ]. *)
Definition read_envs (environ : gmap string string)
  : outcome (gmap string string) :=
  let config_ := filter (fun kv => fst kv ∈ annotations) environ in
  fill annotations config_ ∅.


End startup.

(* ===================================================================== *)
(** * Vocabulary of the further statements *)
(* ===================================================================== *)

(** The [Authorization] header [_request] sends. *)
Definition authorization_of (auth : bool) (w : world) : option string :=
  if auth then Some ("Bearer " ++ token w) else None.

(** From [w] to [w']: the trace grew by events that satisfy [P]. *)
Definition grows (P : event -> Prop) (w w' : world) : Prop :=
  exists evs, trace w' = (trace w ++ evs)%list /\ Forall P evs.

(** Not a prompt that the operator answered with no. *)
Definition confirmed (ev : event) : Prop :=
  match ev with
  | Prompt _ false => False
  | _ => True
  end.

(** No prompt at all, and no exchange with the batch-pay endpoint. *)
Definition unattended (ev : event) : Prop :=
  match ev with
  | Prompt _ _ => False
  | Http _ BATCH_PAY _ _ _ _ => False
  | _ => True
  end.

(** Only the sign-in endpoint is talked to, without a bearer token. *)
Definition sign_in_only (ev : event) : Prop :=
  match ev with
  | Http _ ep a _ _ _ => ep = AUTH_ENDPOINT /\ a = None
  | _ => True
  end.

(** No prompt at all. *)
Definition unprompted (ev : event) : Prop :=
  match ev with
  | Prompt _ _ => False
  | _ => True
  end.

(** Every run of [m] adds no batch-pay exchange, and adds a declined
    prompt only if it exits with code 1. *)
Definition guarded {A} (m : M A) : Prop :=
  forall E w,
  exists evs,
    trace (snd (m E w)) = (trace w ++ evs)%list
    /\ Forall (fun ev => is_batch_call ev = false) evs
    /\ (Forall confirmed evs \/ fst (m E w) = Exit 1).

(** Every run of [m] adds a declined prompt only if it exits with code 1
    and has then added no batch-pay exchange. *)
Definition settled {A} (m : M A) : Prop :=
  forall E w,
  exists evs,
    trace (snd (m E w)) = (trace w ++ evs)%list
    /\ (Forall confirmed evs
        \/ (fst (m E w) = Exit 1
            /\ Forall (fun ev => is_batch_call ev = false) evs)).

(** The world [w] with further events on its trace. *)
Definition with_events (w : world) (evs : list event) : world :=
  {| trace := (trace w ++ evs)%list;
     token := token w;
     account_cache := account_cache w;
     payees_cache := payees_cache w;
     allowed_recipients_cache := allowed_recipients_cache w;
     get_payee_cache := get_payee_cache w |}.

(** The lines around a retry. *)
Definition away_line : event :=
  Log "[warn][warn][/warn] Frame connection is not established".

Definition aborted_line : event :=
  Log "[warn][warn][/warn] Script aborted".

(** [k] rounds of warning and retry. *)
Fixpoint retries (k : nat) : list event :=
  match k with
  | O => []
  | S k' =>
      (retries k' ++ [away_line; Prompt "Retry?" true])%list
  end.

(** Surroundings whose API rejects every request with a 403 and a reason,
    and whose signing agent refuses to sign. *)
Definition refusing : env :=
  {| http := fun _ _ _ _ _ _ =>
       Some {| status_code := 403; text := "{...}";
               body := Some (JObj [("message", JStr "Forbidden");
                                   ("data", JNull)]) |};
     eth_accounts := fun _ => ["0xWallet"];
     eth_sign := fun _ _ _ => RpcError "User declined";
     eth_signTypedData_v4 := fun _ _ _ => RpcError "User declined";
     ask := fun _ _ => false;
     genrand_uint32 := fun _ => 7 |}.


(** Surroundings whose batch-pay endpoint answers with a payload that has
    no [message] member and, to the POST, with an empty success body. *)
Definition headless : env :=
  {| http := fun _ m ep _ _ _ =>
       match m, ep with
       | PUT, BATCH_PAY =>
           Some {| status_code := 200; text := "";
                   body := Some (JObj [("data", JObj [("primaryType", JStr "BatchPay")])]) |}
       | POST, BATCH_PAY =>
           Some {| status_code := 204; text := ""; body := None |}
       | _, _ => None
       end;
     eth_accounts := fun _ => ["0xWallet"];
     eth_sign := fun _ _ _ => RpcResult "0xsigned";
     eth_signTypedData_v4 := fun _ _ _ => RpcResult "0xsigned712";
     ask := fun _ _ => true;
     genrand_uint32 := fun _ => 7 |}.

(** The fixture, except that the POST to batch-pay is answered with an
    empty success body. *)
Definition terse : env :=
  {| http := fun t m ep a p q =>
       match m, ep with
       | POST, BATCH_PAY =>
           Some {| status_code := 204; text := ""; body := None |}
       | _, _ => http fixture t m ep a p q
       end;
     eth_accounts := eth_accounts fixture;
     eth_sign := eth_sign fixture;
     eth_signTypedData_v4 := eth_signTypedData_v4 fixture;
     ask := ask fixture;
     genrand_uint32 := genrand_uint32 fixture |}.

(** The fixture with a sign-in endpoint that hands out a challenge and
    then a token. *)
Definition welcoming : env :=
  {| http := fun t m ep a p q =>
       match m, ep with
       | GET, AUTH_ENDPOINT =>
           Some {| status_code := 200; text := "";
                   body := Some (JObj [("data",
                             JObj [("message", JStr "Sign in to Rise")])]) |}
       | POST, AUTH_ENDPOINT =>
           Some {| status_code := 200; text := "";
                   body := Some (JObj [("data",
                             JObj [("token", JStr "t0k3n")])]) |}
       | _, _ => http fixture t m ep a p q
       end;
     eth_accounts := eth_accounts fixture;
     eth_sign := eth_sign fixture;
     eth_signTypedData_v4 := eth_signTypedData_v4 fixture;
     ask := ask fixture;
     genrand_uint32 := genrand_uint32 fixture |}.

(** One payment to a member of the fixture. *)
Definition to_bob : Payment :=
  {| recipient := "0x00000000000000000000000000000000000000b2";
     amount := 2500000; salt := Some 7 |}.

(** The unsigned-request exchange of [batch_payment]. *)
Definition put_exchange (w : world) (wallet rise_id : string)
  (payments : list Payment) (reply : option Response) : event :=
  Http PUT BATCH_PAY (Some ("Bearer " ++ token w)) None
    (Some (JObj (batch_fields wallet rise_id payments))) reply.

(** The line [batch_payment] logs before it asks for the signature. *)
Definition sign_line : event :=
  Log "[info][info][/info] Sign transaction to send batch payment".

(* ===================================================================== *)
(** * The address pattern *)
(* ===================================================================== *)

Section Pattern.
Import datasource.


Lemma append_nil_r (a : string) : a ++ "" = a.
Proof. induction a as [|x a IH]; simpl; [reflexivity | now rewrite IH]. Qed.


Lemma hex_run_app (h t : string) :
  all_hex h = true -> hex_run (String.length h) (h ++ t) = Some h.
Proof.
  induction h as [|c h IH]; simpl; intros H; [reflexivity|].
  apply andb_true_iff in H as [Hc Hh].
  rewrite Hc, (IH Hh). reflexivity.
Qed.

Lemma hex_run_inv (n : nat) (s h : string) :
  hex_run n s = Some h ->
  String.length h = n /\ all_hex h = true /\ exists t, s = h ++ t.
Proof.
  revert s h. induction n as [|n IH]; simpl; intros s h H.
  - inversion H; subst. repeat split. now exists s.
  - destruct s as [|c r]; [discriminate|].
    destruct (is_hex c) eqn:Hc; [|discriminate].
    destruct (hex_run n r) as [h'|] eqn:Hr; [|discriminate].
    inversion H; subst. destruct (IH _ _ Hr) as (Hl & Hh & t & ->).
    simpl. rewrite Hl, Hc, Hh. repeat split. now exists t.
Qed.

Lemma match_here_address (m post : string) :
  is_address m -> match_here (m ++ post) = Some m.
Proof.
  intros (h & -> & Hl & Hh).
  change (String "0" (String "x" h) ++ post)
    with (String "0" (String "x" (h ++ post))).
  unfold match_here. cbv beta iota.
  rewrite <- Hl, (hex_run_app h post Hh). reflexivity.
Qed.

Lemma match_here_inv (s m : string) :
  match_here s = Some m -> is_address m /\ exists post, s = m ++ post.
Proof.
  unfold match_here. intros H.
  destruct s as [|a s]; [discriminate|].
  destruct (Ascii.eqb_spec a "0"); subst;
    [|destruct a as [[] [] [] [] [] [] [] []]; try discriminate; congruence].
  destruct s as [|b s]; [discriminate|].
  destruct (Ascii.eqb_spec b "x"); subst;
    [|destruct b as [[] [] [] [] [] [] [] []]; try discriminate; congruence].
  destruct (hex_run 40 s) as [h|] eqn:Hr; [|discriminate].
  inversion H; subst.
  destruct (hex_run_inv _ _ _ Hr) as (Hl & Hh & t & ->).
  split; [now exists h | now exists t].
Qed.

Lemma match_here_iff (s : string) :
  match_here s <> None <-> occurs_behind "" s.
Proof.
  split.
  - destruct (match_here s) as [m|] eqn:H; [intros _|congruence].
    destruct (match_here_inv _ _ H) as (Ha & post & ->).
    now exists m, post.
  - intros (m & post & Ha & ->). simpl.
    rewrite (match_here_address m post Ha). discriminate.
Qed.

(** Passing over a prefix of known length. *)
Lemma findall_from_skip (a b : string) :
  findall_from (String.length a) (a ++ b) = findall_from 0 b.
Proof.
  induction a as [|c a IH]; simpl; [reflexivity|exact IH].
Qed.

Lemma findall_from_skip_short (n : nat) (a : string) :
  (String.length a <= n)%nat -> findall_from n a = [].
Proof.
  revert n. induction a as [|c a IH]; intros n Hn; [reflexivity|].
  simpl in *. destruct n as [|n]; [lia|]. apply IH. lia.
Qed.

(** A match at the head is reported and the scan resumes behind it. *)
Lemma findall_match (m post : string) :
  is_address m -> findall (m ++ post) = m :: findall post.
Proof.
  intros Ha. unfold findall.
  pose proof (match_here_address m post Ha) as Hm.
  destruct Ha as (h & -> & Hl & Hh).
  change (String "0" (String "x" h) ++ post)
    with (String "0" (String "x" h ++ post)) in *.
  cbn [findall_from]. rewrite Hm. f_equal.
  replace 41%nat with (String.length (String "x" h))
    by (simpl; now rewrite Hl).
  apply findall_from_skip.
Qed.

(** A head without a match is passed over. *)
Lemma findall_no_match (c : ascii) (s : string) :
  match_here (String c s) = None -> findall (String c s) = findall s.
Proof. unfold findall. cbn [findall_from]. now intros ->. Qed.

(** A prefix in which no match starts contributes nothing. *)
Lemma findall_prefix (pre rest : string) :
  no_match_starts_in pre rest = true ->
  findall (pre ++ rest) = findall rest.
Proof.
  induction pre as [|c pre IH]; intros H; [reflexivity|].
  cbn [no_match_starts_in] in H.
  destruct (match_here (String c pre ++ rest)) eqn:Hm; [discriminate|].
  change (String c pre ++ rest) with (String c (pre ++ rest)) in *.
  rewrite (findall_no_match _ _ Hm). auto.
Qed.





End Pattern.

(* ===================================================================== *)
(** * Recipient extraction *)
(* ===================================================================== *)

Section FindRiseId.
Import datasource.

Lemma find_rise_id_cases (E : env) (w : world) (text : string) :
  find_rise_id (PStr text) E w =
    match findall text with
    | [] => (Exit 1, emit (Log (not_found_line text)) w)
    | [m] => (Ok m, w)
    | _ :: _ :: _ => (Exit 1, emit (Log (multiple_line text)) w)
    end.
Proof.
  unfold find_rise_id.
  destruct (findall text) as [|m [|m' l]]; reflexivity.
Qed.


End FindRiseId.


(** C10. A text in which [0x] is followed by more than 40 hexadecimal
    digits, with no match starting before that run and none reported
    behind its first 42 characters, is accepted: [find_rise_id] returns
    [0x] and the first 40 digits of the run. *)
Theorem find_rise_id_overlong_run (E : env) (w : world)
  (pre h more post : string)
  (Hlen : String.length h = 40%nat)
  (Hhex : all_hex h = true)
  (Hmore : more <> "")
  (Hmore_hex : all_hex more = true)
  (Hbefore : no_match_starts_in pre (String "0" (String "x" h) ++ more ++ post) = true)
  (Hbehind : datasource.findall (more ++ post) = []) :
  datasource.find_rise_id
    (PStr (pre ++ String "0" (String "x" h) ++ more ++ post)) E w
  = (Ok (String "0" (String "x" h)), w).
Proof.
  rewrite find_rise_id_cases, (findall_prefix _ _ Hbefore).
  rewrite findall_match by (now exists h).
  now rewrite Hbehind.
Qed.

Lemma find_rise_id_overlong_run_witness :
  datasource.find_rise_id
    (PStr "to 0xAbCdEf0123456789aBcDeF0123456789aBCDeF01ff, thanks")
    silent fresh_world
  = (Ok "0xAbCdEf0123456789aBcDeF0123456789aBCDeF01", fresh_world).
Proof.
  apply (find_rise_id_overlong_run _ _ "to "
           "AbCdEf0123456789aBcDeF0123456789aBCDeF01" "ff" ", thanks");
    try reflexivity.
  discriminate.
Defined.

(** Matches are counted as [findall] reports them: an address that begins
    on the last character of an earlier match is not reported, and the
    text is accepted with the earlier match. *)
Example find_rise_id_overlap :
  datasource.find_rise_id
    (PStr ("0xaaaaaaaaaaaaaaaaaaaaaaaaaaaaaaaaaaaaaaa0"
           ++ "xbbbbbbbbbbbbbbbbbbbbbbbbbbbbbbbbbbbbbbbb"))
    silent fresh_world
  = (Ok "0xaaaaaaaaaaaaaaaaaaaaaaaaaaaaaaaaaaaaaaa0", fresh_world)
  /\ occurs_behind "0xaaaaaaaaaaaaaaaaaaaaaaaaaaaaaaaaaaaaaaa"
       ("0xaaaaaaaaaaaaaaaaaaaaaaaaaaaaaaaaaaaaaaa0"
        ++ "xbbbbbbbbbbbbbbbbbbbbbbbbbbbbbbbbbbbbbbbb").
Proof.
  split; [vm_compute; reflexivity|].
  exists "0xbbbbbbbbbbbbbbbbbbbbbbbbbbbbbbbbbbbbbbbb", "".
  split; [|reflexivity].
  exists "bbbbbbbbbbbbbbbbbbbbbbbbbbbbbbbbbbbbbbbb". repeat split.
Qed.

(* ===================================================================== *)
(** * Amount conversion *)
(* ===================================================================== *)

Section Amount.
Import PyFloat.

Lemma million_value : million = S754_finite false 8589934592000000 (-33).
Proof. vm_compute. reflexivity. Qed.

(** [int] of a finite float cuts it off towards zero and never fails. *)
Lemma int_of_float_finite (x : spec_float) :
  is_finite x = true ->
  exists a, int_of_float x = Ok a /\ truncation_of x a.
Proof.
  destruct x as [s|s| |neg m e]; try discriminate; intros _; simpl.
  - now exists 0.
  - eexists; split; [reflexivity|].
    destruct (Z.leb_spec 0 e) as [He|He].
    + exists (Z.shiftl (Zpos m) e). split; [reflexivity|].
      rewrite Z.shiftl_mul_pow2 by lia.
      rewrite (Z.max_l 0 (- e)), (Z.max_r 0 e) by lia.
      rewrite Z.pow_0_r. lia.
    + exists (Z.shiftr (Zpos m) (- e)). split; [reflexivity|].
      rewrite Z.shiftr_div_pow2 by lia.
      rewrite (Z.max_r 0 (- e)), (Z.max_l 0 e) by lia.
      rewrite Z.pow_0_r.
      assert (Hd : 0 < 2 ^ (- e)) by (apply Z.pow_pos_nonneg; lia).
      pose proof (Z.div_mod (Zpos m) (2 ^ (- e)) ltac:(lia)) as Hdm.
      pose proof (Z.mod_pos_bound (Zpos m) (2 ^ (- e)) Hd) as Hb.
      nia.
Qed.

Lemma int_of_float_not_finite (x : spec_float) :
  is_finite x = false -> exists e, int_of_float x = Raise e.
Proof.
  destruct x; try discriminate; intros _; simpl; eauto.
Qed.


(** Rounding keeps the sign it is given. *)
Lemma binary_round_aux_sign (s : bool) (m e : Z) (l : location) :
  match binary_round_aux prec emax s m e l with
  | S754_zero s' | S754_infinity s' | S754_finite s' _ _ => s' = s
  | S754_nan => True
  end.
Proof.
  unfold binary_round_aux.
  destruct (shr_fexp prec emax m e l) as [mrs' e'].
  destruct (shr_fexp prec emax _ e' loc_Exact) as [mrs'' e''].
  destruct (shr_m mrs''); try exact I; try reflexivity.
  destruct (Z.leb e'' (Z.sub emax prec)); reflexivity.
Qed.

(** The product with [10^6] has the sign of the amount. *)
Lemma mul_million_sign (f : spec_float) :
  is_finite (mul f million) = true ->
  sign_bit (mul f million) = sign_bit f.
Proof.
  rewrite million_value. unfold mul.
  destruct f as [s|s| |s m e]; simpl; try discriminate.
  - intros _. now destruct s.
  - pose proof (binary_round_aux_sign (xorb s false)
                  (Zpos (Pos.mul m 8589934592000000)) (Z.add e (-33))
                  loc_Exact) as H.
    destruct (binary_round_aux _ _ _ _ _ _); simpl; try discriminate;
      intros _; rewrite H; now destruct s.
Qed.

Lemma truncation_sign (x : spec_float) (a : Z) :
  truncation_of x a ->
  (sign_bit x = false -> 0 <= a) /\ (sign_bit x = true -> a <= 0).
Proof.
  destruct x as [s|s| |neg m e]; simpl; try tauto.
  - intros ->. lia.
  - intros (v & -> & Hlo & Hhi).
    assert (Hd : 0 < 2 ^ Z.max 0 (- e)) by (apply Z.pow_pos_nonneg; lia).
    assert (Hn : 0 < 2 ^ Z.max 0 e) by (apply Z.pow_pos_nonneg; lia).
    assert (Hv : 0 <= v) by nia.
    split; intros ->; lia.
Qed.

(** What [payment_amount] does with a string. *)
Lemma payment_amount_cases (E : env) (w : world) (s : string) :
  datasource.payment_amount (PStr s) E w =
    match float_of_str s with
    | None => (Exit 1, emit (Log (invalid_amount_line s)) w)
    | Some f => (int_of_float (mul f million), w)
    end.
Proof.
  unfold datasource.payment_amount.
  destruct (float_of_str s); reflexivity.
Qed.

End Amount.



(** What the code does outside the finite values: [nan] and [inf] pass
    [float] and then fail in [int], with an exception nothing catches. *)
Example payment_amount_nan_inf :
  fst (datasource.payment_amount (PStr "nan") silent fresh_world)
  = Raise (ValueError "cannot convert float NaN to integer")
  /\ fst (datasource.payment_amount (PStr "inf") silent fresh_world)
     = Raise OverflowError
  /\ fst (datasource.payment_amount (PStr "1e400") silent fresh_world)
     = Raise OverflowError.
Proof. repeat split; vm_compute; reflexivity. Qed.

(* ===================================================================== *)
(** * Ingestion *)
(* ===================================================================== *)

Section Ingestion.
Import datasource.

Lemma map_m_cons {A B} (f : A -> M B) (x : A) (xs : list A) (E : env) (w : world) :
  map_m f (x :: xs) E w =
    match f x E w with
    | (Ok y, w1) =>
        match map_m f xs E w1 with
        | (Ok ys, w2) => (Ok (y :: ys), w2)
        | (Exit c, w2) => (Exit c, w2)
        | (Raise e, w2) => (Raise e, w2)
        end
    | (Exit c, w1) => (Exit c, w1)
    | (Raise e, w1) => (Raise e, w1)
    end.
Proof.
  cbn [map_m]. unfold bind, ret.
  destruct (f x E w) as [[y|c|e] w1]; reflexivity.
Qed.

(** A list comes back only if every element was converted. *)
Lemma map_m_ok_inv {A B} (f : A -> M B) (xs : list A) (E : env) :
  forall (w : world) (ys : list B) (w' : world),
    map_m f xs E w = (Ok ys, w') ->
    Forall2 (fun x y => exists w1 w2, f x E w1 = (Ok y, w2)) xs ys.
Proof.
  induction xs as [|x xs IH]; intros w ys w' H.
  - inversion H; subst. constructor.
  - rewrite map_m_cons in H.
    destruct (f x E w) as [[y|c|e] w1] eqn:Hx; try discriminate.
    destruct (map_m f xs E w1) as [[ys'|c|e] w2] eqn:Hxs; try discriminate.
    inversion H; subst. constructor; eauto.
Qed.


Lemma new_Payment_run (E : env) (w : world) (r : string) (a : Z) (s0 : option Z) :
  new_Payment r a s0 E w
  = (Ok {| recipient := r; amount := a;
           salt := Some (genrand_uint32 E (trace w) mod 2 ^ 32) |},
     emit (RandBits (genrand_uint32 E (trace w))) w).
Proof.
  unfold new_Payment, post_init, getrandbits, bind, observe, tell, ret, set_salt.
  cbn [recipient amount]. now rewrite Z.sub_diag, Z.shiftr_0_r.
Qed.

(** One row, step by step. *)
Lemma payment_of_row_run (E : env) (w : world) (row : gmap string pyval) :
  payment_of_row row E w =
    match row !! "outgoing_token" with
    | None => (Raise (KeyError "outgoing_token"), w)
    | Some tok =>
        if negb (eq_str tok "DAI") then
          (Exit 1,
           emit (Log ("[error][error][/error] "
                      ++ "Unsupported token: [bold]" ++ py_str tok ++ "[/bold]")) w)
        else
          match row !! "outgoing_amount" with
          | None => (Raise (KeyError "outgoing_amount"), w)
          | Some a =>
              match payment_amount a E w with
              | (Ok amt, w1) =>
                  match row !! "Description" with
                  | None => (Raise (KeyError "Description"), w1)
                  | Some d =>
                      match find_rise_id d E w1 with
                      | (Ok r, w2) => new_Payment r amt None E w2
                      | (Exit c, w2) => (Exit c, w2)
                      | (Raise e, w2) => (Raise e, w2)
                      end
                  end
              | (Exit c, w1) => (Exit c, w1)
              | (Raise e, w1) => (Raise e, w1)
              end
          end
    end.
Proof.
  unfold payment_of_row, _sanity_checks, getitem, bind.
  destruct (row !! "outgoing_token") as [tok|] eqn:Ht; [|reflexivity].
  unfold ret at 1.
  destruct (eq_str tok "DAI"); cbn [negb].
  - unfold ret at 1.
    destruct (row !! "outgoing_amount") as [a|]; [|reflexivity].
    unfold ret at 1.
    destruct (payment_amount a E w) as [[amt|c|e] w1]; try reflexivity.
    destruct (row !! "Description") as [d|]; [|reflexivity].
    unfold ret at 1.
    destruct (find_rise_id d E w1) as [[r|c|e] w2]; reflexivity.
  - reflexivity.
Qed.

(** A payment comes out of a row only along the accepting path. *)
Lemma payment_of_row_ok (E : env) (w w' : world) (row : gmap string pyval)
  (p : Payment) :
  payment_of_row row E w = (Ok p, w') ->
  declares_dai row = true
  /\ exists s d f,
      row !! "outgoing_amount" = Some (PStr s)
      /\ row !! "Description" = Some (PStr d)
      /\ PyFloat.float_of_str s = Some f
      /\ PyFloat.int_of_float (PyFloat.mul f million) = Ok (amount p)
      /\ findall d = [recipient p]
      /\ salt p = Some (genrand_uint32 E (trace w) mod 2 ^ 32)
      /\ w' = emit (RandBits (genrand_uint32 E (trace w))) w.
Proof.
  rewrite payment_of_row_run. unfold declares_dai.
  destruct (row !! "outgoing_token") as [tok|]; [|discriminate].
  destruct (eq_str tok "DAI"); [|discriminate]. cbn [negb].
  destruct (row !! "outgoing_amount") as [[|s]|] eqn:Hs; try discriminate.
  rewrite payment_amount_cases.
  destruct (PyFloat.float_of_str s) as [f|] eqn:Hf; [|discriminate].
  destruct (PyFloat.int_of_float (PyFloat.mul f million)) as [a|c|e] eqn:Ha;
    try discriminate.
  destruct (row !! "Description") as [[|d]|] eqn:Hdesc; try discriminate.
  rewrite find_rise_id_cases.
  destruct (findall d) as [|r [|r' l]] eqn:Hd; try discriminate.
  rewrite new_Payment_run. intros H. inversion H; subst. clear H.
  split; [reflexivity|]. exists s, d, f. cbn. repeat split; congruence.
Qed.

(** An accepted row always yields its payment. *)
Lemma payment_of_row_accepted (E : env) (w : world) (row : gmap string pyval) :
  row_accepted row = true ->
  exists p, payment_of_row row E w
            = (Ok p, emit (RandBits (genrand_uint32 E (trace w))) w).
Proof.
  unfold row_accepted. rewrite payment_of_row_run.
  destruct (row !! "outgoing_token") as [tok|]; [|discriminate].
  destruct (row !! "outgoing_amount") as [[|s]|]; try discriminate.
  destruct (row !! "Description") as [[|d]|]; try discriminate.
  destruct (eq_str tok "DAI"); [|discriminate]. cbn [negb andb].
  rewrite payment_amount_cases.
  destruct (PyFloat.float_of_str s) as [f|]; [|discriminate].
  intros H. apply andb_true_iff in H as [Hfin Hd].
  destruct (int_of_float_finite _ Hfin) as (a & -> & _).
  rewrite find_rise_id_cases.
  destruct (findall d) as [|r [|r' l]]; try discriminate.
  rewrite new_Payment_run. eauto.
Qed.

(** A row with another token never yields a payment. *)
Lemma payment_of_row_other_token (E : env) (w : world) (row : gmap string pyval) :
  declares_dai row = false -> is_ok (fst (payment_of_row row E w)) = false.
Proof.
  unfold declares_dai. rewrite payment_of_row_run.
  destruct (row !! "outgoing_token") as [tok|]; [|reflexivity].
  now intros ->.
Qed.

End Ingestion.

Lemma int_of_float_truncates (x : spec_float) (a : Z) :
  PyFloat.int_of_float x = Ok a -> truncation_of x a.
Proof.
  intros H. destruct (PyFloat.is_finite x) eqn:Hfin.
  - destruct (int_of_float_finite x Hfin) as (a' & Ha' & Ht). congruence.
  - destruct (int_of_float_not_finite x Hfin) as (e & He). congruence.
Qed.




(** C3 (as stated, refuted). Ingestion succeeds on a row whose amount field
    is [-1.5] and produces the amount [-1500000]. *)
Lemma ingested_amount_negative :
  fst (datasource.payments_from_csv
         [csv_row "-1.5" "DAI"
            "pay to 0xAbCdEf0123456789aBcDeF0123456789aBCDeF01"]
         silent fresh_world)
  = Ok [ {| recipient := "0xAbCdEf0123456789aBcDeF0123456789aBCDeF01";
            amount := -1500000; salt := Some 0 |} ]
  /\ -1500000 < 0.
Proof. split; [vm_compute; reflexivity | lia]. Qed.

(** C3 (amended). Whenever ingestion succeeds, every payment's amount is an
    integer with the sign of its amount field: it is non-negative when the
    field reads as a float without the sign bit, and not positive when the
    field reads as a float with the sign bit. *)
Theorem ingested_amount_sign (E : env) (w w' : world)
  (rows : list (gmap string pyval)) (ps : list Payment)
  (Hrun : datasource.payments_from_csv rows E w = (Ok ps, w')) :
  Forall2
    (fun row p =>
       exists s f,
         row !! "outgoing_amount" = Some (PStr s)
         /\ PyFloat.float_of_str s = Some f
         /\ (PyFloat.sign_bit f = false -> 0 <= amount p)
         /\ (PyFloat.sign_bit f = true -> amount p <= 0))
    rows ps.
Proof.
  apply map_m_ok_inv in Hrun.
  eapply Forall2_impl; [exact Hrun|].
  intros row p (w1 & w2 & Hp). cbn beta.
  apply payment_of_row_ok in Hp
    as (_ & s & d & f & Hs & _ & Hf & Ha & _).
  exists s, f. split; [exact Hs|]. split; [exact Hf|].
  pose proof (int_of_float_truncates _ _ Ha) as Ht.
  assert (Hfin : PyFloat.is_finite (PyFloat.mul f million) = true).
  { destruct (PyFloat.mul f million); simpl in Ht; try contradiction; reflexivity. }
  rewrite <- (mul_million_sign f Hfin).
  now apply truncation_sign.
Qed.

Lemma ingested_amount_sign_witness :
  Forall2
    (fun row p =>
       exists s f,
         row !! "outgoing_amount" = Some (PStr s)
         /\ PyFloat.float_of_str s = Some f
         /\ (PyFloat.sign_bit f = false -> 0 <= amount p)
         /\ (PyFloat.sign_bit f = true -> amount p <= 0))
    [csv_row "2.50" "DAI" "pay to 0xAbCdEf0123456789aBcDeF0123456789aBCDeF01"]
    [ {| recipient := "0xAbCdEf0123456789aBcDeF0123456789aBCDeF01";
         amount := 2500000; salt := Some 0 |} ].
Proof.
  apply (ingested_amount_sign silent fresh_world
           {| trace := [RandBits 0]; token := ""; account_cache := None;
              payees_cache := None; allowed_recipients_cache := None;
              get_payee_cache := [] |}).
  vm_compute. reflexivity.
Defined.

Lemma Forall2_pick_l {A B} (P : A -> B -> Prop) (xs : list A) (ys : list B) (x : A) :
  Forall2 P xs ys -> In x xs -> exists y, In y ys /\ P x y.
Proof.
  induction 1 as [|x0 y0 xs ys Hxy _ IH]; intros Hin; [destruct Hin|].
  destruct Hin as [->|Hin].
  - exists y0. split; [now left | exact Hxy].
  - destruct (IH Hin) as (y & Hy & HP). exists y. split; [now right | exact HP].
Qed.

(** C6. When some row of the file does not declare the supported token,
    ingestion returns no list of payments at all, whatever the other rows
    hold: the run ends in an exit or an exception. *)
Theorem unsupported_token_aborts (E : env) (w : world)
  (rows : list (gmap string pyval))
  (Hbad : existsb (fun row => negb (declares_dai row)) rows = true) :
  is_ok (fst (datasource.payments_from_csv rows E w)) = false
  /\ forall ps w', datasource.payments_from_csv rows E w <> (Ok ps, w').
Proof.
  assert (Hno : forall ps w',
             datasource.payments_from_csv rows E w <> (Ok ps, w')).
  { intros ps w' Hrun. apply map_m_ok_inv in Hrun.
    apply existsb_exists in Hbad as (row & Hin & Hrow).
    apply negb_true_iff in Hrow.
    destruct (Forall2_pick_l _ _ _ _ Hrun Hin) as (p & _ & w1 & w2 & Hp).
    apply payment_of_row_ok in Hp as (Hdai & _). congruence. }
  split; [|exact Hno].
  destruct (datasource.payments_from_csv rows E w) as [[ps|c|e] w'] eqn:Hrun;
    try reflexivity.
  now destruct (Hno ps w').
Qed.

Lemma unsupported_token_aborts_witness :
  is_ok (fst (datasource.payments_from_csv
                [csv_row "1.5" "DAI"
                   "pay to 0xAbCdEf0123456789aBcDeF0123456789aBCDeF01";
                 csv_row "2" "USDC"
                   "pay to 0xAbCdEf0123456789aBcDeF0123456789aBCDeF01"]
                silent fresh_world)) = false
  /\ forall ps w',
      datasource.payments_from_csv
        [csv_row "1.5" "DAI"
           "pay to 0xAbCdEf0123456789aBcDeF0123456789aBCDeF01";
         csv_row "2" "USDC"
           "pay to 0xAbCdEf0123456789aBcDeF0123456789aBCDeF01"]
        silent fresh_world <> (Ok ps, w').
Proof.
  apply unsupported_token_aborts. vm_compute. reflexivity.
Defined.

(* ===================================================================== *)
(** * How the client and the loop move the world *)
(* ===================================================================== *)

Section Steps.
Variable R : world -> world -> Prop.
Variable Pev : event -> Prop.
Hypothesis R_refl : forall w, R w w.
Hypothesis R_trans : forall w1 w2 w3, R w1 w2 -> R w2 w3 -> R w1 w3.
Hypothesis R_emit : forall w ev, Pev ev -> R w (emit ev w).
Hypothesis R_account :
  forall E w a, R w (snd (FrameSigner.set_account_cache a E w)).
Hypothesis R_payees :
  forall E w l, R w (snd (RiseAPI.set_payees_cache l E w)).
Hypothesis R_payee :
  forall E w k v, R w (snd (RiseAPI.remember_payee k v E w)).
Hypothesis R_allowed :
  forall E w0 w l,
    R w0 w -> allowed_recipients_cache w0 = None ->
    R w0 (snd (RiseAPI.set_allowed_recipients_cache l E w)).
Hypothesis Pev_quiet : forall ev, quiet ev = true -> Pev ev.

Lemma steps_ret {A} (a : A) : steps R (ret a).
Proof. intros E w. apply R_refl. Qed.

Lemma steps_lift {A} (o : outcome A) : steps R (lift o).
Proof. intros E w. apply R_refl. Qed.

Lemma steps_raise {A} (e : exn) : steps R (@raise A e).
Proof. intros E w. apply R_refl. Qed.

Lemma steps_exit {A} (c : Z) : steps R (@sys_exit A c).
Proof. intros E w. apply R_refl. Qed.

Lemma steps_observe {A} (f : env -> list event -> A) : steps R (observe f).
Proof. intros E w. apply R_refl. Qed.

Lemma steps_get_world : steps R get_world.
Proof. intros E w. apply R_refl. Qed.

Lemma steps_tell (ev : event) : Pev ev -> steps R (tell ev).
Proof. intros H E w. now apply R_emit. Qed.

Lemma steps_bind {A B} (m : M A) (k : A -> M B) :
  steps R m -> (forall a, steps R (k a)) -> steps R (bind m k).
Proof.
  intros Hm Hk E w. unfold bind.
  specialize (Hm E w).
  destruct (m E w) as [[a|c|e] w1]; cbn [snd] in *; try exact Hm.
  eapply R_trans; [exact Hm | apply Hk].
Qed.

Lemma steps_map_m {A B} (f : A -> M B) (xs : list A) :
  (forall x, steps R (f x)) -> steps R (map_m f xs).
Proof.
  intros Hf. induction xs as [|x xs IH]; cbn [map_m].
  - apply steps_ret.
  - apply steps_bind; [apply Hf|intros y].
    apply steps_bind; [apply IH|intros ys]. apply steps_ret.
Qed.

Ltac step :=
  lazymatch goal with
  | |- steps _ (bind _ _) => apply steps_bind; [|intros ?]
  | |- steps _ (ret _) => apply steps_ret
  | |- steps _ (lift _) => apply steps_lift
  | |- steps _ (raise _) => apply steps_raise
  | |- steps _ (sys_exit _) => apply steps_exit
  | |- steps _ (observe _) => apply steps_observe
  | |- steps _ get_world => apply steps_get_world
  | |- steps _ (tell _) => apply steps_tell; try (apply Pev_quiet; reflexivity)
  | |- steps _ (map_m _ _) => apply steps_map_m; intros ?
  | |- steps _ (if ?b then _ else _) => destruct b
  | |- steps _ (match ?x with _ => _ end) => destruct x
  end.

Lemma steps_log_error (t : string) : steps R (log.error t).
Proof. unfold log.error. step. Qed.

Lemma steps_log_info (t : string) : steps R (log.info t).
Proof. unfold log.info. step. Qed.

Lemma steps_log_warn (t : string) : steps R (log.warn t).
Proof. unfold log.warn. step. Qed.

Lemma steps_log_okay (t : string) : steps R (log.okay t).
Proof. unfold log.okay. step. Qed.

Lemma steps_console_print (p : printable) : steps R (log.console_print p).
Proof. unfold log.console_print. step. Qed.

Lemma steps_prompt (t : string) : steps R (log.prompt_yes_no t).
Proof. unfold log.prompt_yes_no. repeat step. Qed.

Lemma steps_w3_eth_accounts : steps R FrameSigner.w3_eth_accounts.
Proof. unfold FrameSigner.w3_eth_accounts. repeat step. Qed.

Lemma steps_account : steps R FrameSigner.account.
Proof.
  unfold FrameSigner.account.
  step; [step|]. step; [step|].
  step; [apply steps_w3_eth_accounts|]. step.
  - step; [apply steps_log_error|step].
  - step; [apply steps_w3_eth_accounts|]. step; [step|].
    step; [|step]. intros E w. apply R_account.
Qed.

Lemma steps_sign_typed (msg : json) : steps R (FrameSigner.sign_typed msg).
Proof.
  unfold FrameSigner.sign_typed.
  step; [apply steps_account|]. step; [step|]. step; [step|].
  step; [|step]. step; [apply steps_log_error|step].
Qed.

Lemma steps_auth_headers : steps R RiseAPI._auth_headers.
Proof. unfold RiseAPI._auth_headers. repeat step. Qed.

Lemma steps_raise_for_status (r : Response) (m : method) (ep : endpoint) :
  steps R (RiseAPI._raise_for_status r m ep).
Proof.
  unfold RiseAPI._raise_for_status.
  step; [|step]. step; [|step].
  destruct (py_getitem j "message") as [x|c|[]]; step.
Qed.

(** A request moves the world as the event it leaves does. *)
Lemma steps_request (m : method) (ep : endpoint) (auth : bool)
  (params payload : option json) :
  (forall a r, Pev (Http m ep a params payload r)) ->
  steps R (RiseAPI._request m ep auth params payload).
Proof.
  intros HP. unfold RiseAPI._request.
  step.
  { step; [|step]. step; [apply steps_auth_headers|step]. }
  step; [step|]. step; [apply steps_tell, HP|].
  step; [|step]. step; [apply steps_raise_for_status|].
  step; [|step].
  destruct (py_getitem j "data") as [x|c|[]]; step.
Qed.

Lemma steps_get_teams : steps R RiseAPI.get_teams.
Proof.
  apply steps_request. intros. apply Pev_quiet. reflexivity.
Qed.

Lemma steps_get_team_members (team_id : json) :
  steps R (RiseAPI.get_team_members team_id).
Proof.
  apply steps_request. intros. apply Pev_quiet. reflexivity.
Qed.

Lemma steps_collect_payees (teams payees : list json) :
  steps R (RiseAPI.collect_payees teams payees).
Proof.
  revert payees. induction teams as [|team rest IH]; intros payees;
    cbn [RiseAPI.collect_payees]; [step|].
  step; [step|]. step; [apply steps_get_team_members|].
  step; [step|]. apply IH.
Qed.

Lemma steps_payees : steps R RiseAPI.payees.
Proof.
  unfold RiseAPI.payees.
  step; [step|]. step; [step|].
  step; [apply steps_get_teams|]. step; [step|].
  step; [apply steps_collect_payees|]. step; [|step].
  intros E w. apply R_payees.
Qed.

Lemma steps_allowed_recipients : steps R RiseAPI.allowed_recipients.
Proof.
  intros E w. unfold RiseAPI.allowed_recipients, bind, get_world.
  destruct (allowed_recipients_cache w) as [l|] eqn:Hc; [apply R_refl|].
  pose proof (steps_payees E w) as H1.
  destruct (RiseAPI.payees E w) as [[ps|c|e] w1]; cbn [snd] in *; try exact H1.
  assert (H2 : steps R (map_m (fun p => lift (py_getitem p "riseId")) ps))
    by (step; step).
  specialize (H2 E w1).
  destruct (map_m _ ps E w1) as [[l|c|e] w2]; cbn [snd] in *;
    try (eapply R_trans; eassumption).
  apply (R_allowed E w w2 l); [eapply R_trans; eassumption | exact Hc].
Qed.

Lemma steps_find_payee (rise_id : string) (ps : list json) :
  steps R (RiseAPI.find_payee rise_id ps).
Proof.
  induction ps as [|payee rest IH]; cbn [RiseAPI.find_payee]; [step|].
  step; [step|]. step; [step|apply IH].
Qed.

Lemma steps_get_payee (rise_id : string) : steps R (RiseAPI.get_payee rise_id).
Proof.
  unfold RiseAPI.get_payee.
  step; [step|]. step; [step|].
  step; [apply steps_payees|]. step; [apply steps_find_payee|].
  step; [|step]. intros E w. apply R_payee.
Qed.

Lemma steps_confirm_each (payments : list Payment) :
  forall i tree, steps R (main.confirm_each i payments tree).
Proof.
  induction payments as [|p rest IH]; intros i tree;
    cbn [main.confirm_each]; [step|].
  step; [apply steps_allowed_recipients|].
  step; [step|].
  step; [apply steps_get_payee|].
  step; [step|]. step; [step|]. step; [step|].
  step; [apply steps_console_print|].
  step; [apply steps_prompt|].
  step.
  - step; [apply steps_log_error|step].
  - step; [step|apply IH].
Qed.

(** The two batch-pay exchanges are the only events of [batch_payment]
    that need more than quietness. *)
Lemma steps_batch_payment (rise_id : string) (payments : list Payment) :
  (forall m a payload r,
      (exists b, payload = Some b
                 /\ py_getitem b "payments"
                    = Ok (JList (map RiseAPI.asdict payments))) ->
      Pev (Http m BATCH_PAY a None payload r)) ->
  steps R (RiseAPI.batch_payment rise_id payments).
Proof.
  intros HP. unfold RiseAPI.batch_payment.
  step.
  { unfold RiseAPI._get_batch_payment_message.
    step; [apply steps_account|].
    apply steps_request. intros. apply HP. eexists. split; reflexivity. }
  step; [apply steps_log_info|].
  step; [apply steps_sign_typed|].
  step; [step|].
  unfold RiseAPI._send_batch_payment.
  step; [apply steps_account|].
  step; [|step].
  apply steps_request. intros. apply HP. eexists. split; reflexivity.
Qed.

Lemma steps_confirm_and_pay (entity : string) (payments : list Payment) :
  (forall m a payload r,
      (exists b, payload = Some b
                 /\ py_getitem b "payments"
                    = Ok (JList (map RiseAPI.asdict payments))) ->
      Pev (Http m BATCH_PAY a None payload r)) ->
  steps R (main.confirm_and_pay entity payments).
Proof.
  intros HP. unfold main.confirm_and_pay.
  step; [apply steps_confirm_each|].
  step; [apply steps_log_warn|].
  step; [apply steps_console_print|].
  step; [step|]. step; [step|].
  step; [apply steps_prompt|].
  step.
  - step; [apply steps_log_error|step].
  - step; [apply steps_batch_payment, HP|].
    step; [apply steps_log_info|apply steps_log_okay].
Qed.

End Steps.

Section Extends.
Variable P : event -> Prop.
Hypothesis P_quiet : forall ev, quiet ev = true -> P ev.

Lemma extends_refl (w : world) : extends P w w.
Proof.
  split; [|auto]. exists []. split; [now rewrite app_nil_r|constructor].
Qed.

Lemma extends_trans (w1 w2 w3 : world) :
  extends P w1 w2 -> extends P w2 w3 -> extends P w1 w3.
Proof.
  intros [(e1 & H1 & F1) K1] [(e2 & H2 & F2) K2]. split; [|auto].
  exists (e1 ++ e2)%list. split.
  - now rewrite H2, H1, app_assoc.
  - now apply Forall_app.
Qed.

Lemma extends_emit (w : world) (ev : event) : P ev -> extends P w (emit ev w).
Proof.
  intros H. split; [|auto]. exists [ev]. split; [reflexivity|].
  now repeat constructor.
Qed.

Lemma extends_same_trace (w0 w w' : world) :
  extends P w0 w -> trace w' = trace w ->
  (forall l, allowed_recipients_cache w0 = Some l ->
             allowed_recipients_cache w' = Some l) ->
  extends P w0 w'.
Proof.
  intros [(evs & H & F) _] Ht Hc. split; [|exact Hc].
  exists evs. now rewrite Ht.
Qed.

Lemma extends_account (E : env) (w : world) (a : string) :
  extends P w (snd (FrameSigner.set_account_cache a E w)).
Proof. apply (extends_same_trace w w); auto using extends_refl. Qed.

Lemma extends_payees (E : env) (w : world) (l : list json) :
  extends P w (snd (RiseAPI.set_payees_cache l E w)).
Proof. apply (extends_same_trace w w); auto using extends_refl. Qed.

Lemma extends_payee (E : env) (w : world) (k : string) (v : json) :
  extends P w (snd (RiseAPI.remember_payee k v E w)).
Proof. apply (extends_same_trace w w); auto using extends_refl. Qed.

Lemma extends_allowed (E : env) (w0 w : world) (l : list json) :
  extends P w0 w -> allowed_recipients_cache w0 = None ->
  extends P w0 (snd (RiseAPI.set_allowed_recipients_cache l E w)).
Proof.
  intros H Hc. apply (extends_same_trace w0 w); auto.
  intros l'. congruence.
Qed.

Ltac close_extends :=
  first [ exact extends_refl | exact extends_trans | exact extends_emit
        | exact extends_account | exact extends_payees
        | exact extends_payee | exact extends_allowed | exact P_quiet ].

(** The client and the loop, started anywhere, only add events that
    satisfy [P] (given that the batch-pay exchanges do) and never replace
    a memoised [allowed_recipients]. *)
Lemma confirm_each_extends (payments : list Payment) (i : nat)
  (tree : list (nat * string * spec_float)) :
  steps (extends P) (main.confirm_each i payments tree).
Proof. apply (steps_confirm_each (extends P) P); close_extends. Qed.

Lemma get_payee_extends (rise_id : string) :
  steps (extends P) (RiseAPI.get_payee rise_id).
Proof. apply (steps_get_payee (extends P) P); close_extends. Qed.

Lemma confirm_and_pay_extends (entity : string) (payments : list Payment) :
  (forall m a payload r,
      (exists b, payload = Some b
                 /\ py_getitem b "payments"
                    = Ok (JList (map RiseAPI.asdict payments))) ->
      P (Http m BATCH_PAY a None payload r)) ->
  steps (extends P) (main.confirm_and_pay entity payments).
Proof.
  intros HP.
  apply (steps_confirm_and_pay (extends P) P); first [close_extends | exact HP].
Qed.

End Extends.

(* ===================================================================== *)
(** * The recipient check of the orchestrator *)
(* ===================================================================== *)

Section RecipientCheck.

Lemma bind_fails {A B} (Q : world -> Prop) (m : M A) (k : A -> M B)
  (E : env) (w : world) :
  Q w ->
  (forall w0, Q w0 -> Q (snd (m E w0))) ->
  (forall a w1, Q w1 -> is_ok (fst (k a E w1)) = false) ->
  is_ok (fst (bind m k E w)) = false.
Proof.
  intros HQ Hm Hk. unfold bind. specialize (Hm w HQ).
  destruct (m E w) as [[a|c|e] w1]; cbn [snd fst] in *; auto.
Qed.

Lemma keeps_allowed {A} (m : M A) (allowed : list json) :
  steps (extends (fun _ => True)) m ->
  forall E w0,
    allowed_recipients_cache w0 = Some allowed ->
    allowed_recipients_cache (snd (m E w0)) = Some allowed.
Proof. intros H E w0 Hc. now apply (H E w0). Qed.

Lemma allowed_recipients_cached (E : env) (w : world) (l : list json) :
  allowed_recipients_cache w = Some l ->
  RiseAPI.allowed_recipients E w = (Ok l, w).
Proof.
  intros H. unfold RiseAPI.allowed_recipients, bind, get_world.
  now rewrite H.
Qed.

(** A successful [allowed_recipients] leaves its result memoised. *)
Lemma allowed_recipients_memoises (E : env) (w w0 : world) (l : list json) :
  RiseAPI.allowed_recipients E w = (Ok l, w0) ->
  allowed_recipients_cache w0 = Some l.
Proof.
  unfold RiseAPI.allowed_recipients, bind, get_world.
  destruct (allowed_recipients_cache w) as [l0|] eqn:Hc.
  - unfold ret. intros H. inversion H; subst. exact Hc.
  - destruct (RiseAPI.payees E w) as [[ps|c|e] w1]; try discriminate.
    destruct (map_m _ ps E w1) as [[l'|c|e] w2]; try discriminate.
    unfold RiseAPI.set_allowed_recipients_cache, ret.
    intros H. inversion H; subst. reflexivity.
Qed.

(** With the directory memoised, a payment outside it stops the loop. *)
Lemma confirm_each_rejects (E : env) (allowed : list json)
  (payments : list Payment) :
  existsb (unlisted allowed) payments = true ->
  forall i tree w,
    allowed_recipients_cache w = Some allowed ->
    is_ok (fst (main.confirm_each i payments tree E w)) = false.
Proof.
  set (Q := fun w => allowed_recipients_cache w = Some allowed).
  assert (Hstep : forall A (m : M A),
             steps (extends (fun _ => True)) m ->
             forall w0, Q w0 -> Q (snd (m E w0))).
  { intros A m Hm w0 Hw0. now apply (keeps_allowed m allowed Hm E w0). }
  assert (Hlift : forall A (o : outcome A) w0, Q w0 -> Q (snd (lift o E w0)))
    by (intros; assumption).
  induction payments as [|p rest IH]; intros Hbad i tree w Hw;
    [discriminate|].
  cbn [main.confirm_each]. unfold bind at 1.
  rewrite (allowed_recipients_cached E w allowed Hw).
  cbn [existsb] in Hbad. unfold unlisted at 1 in Hbad.
  destruct (py_in (recipient p) allowed); cbn [negb orb] in *;
    [|reflexivity].
  apply (bind_fails Q); [exact Hw| |intros payee w1 H1].
  { apply Hstep, get_payee_extends. auto. }
  apply (bind_fails Q); [exact H1|apply Hlift|intros first w2 H2].
  apply (bind_fails Q); [exact H2|apply Hlift|intros last w3 H3].
  apply (bind_fails Q); [exact H3|apply Hlift|intros usd w4 H4].
  apply (bind_fails Q); [exact H4| |intros [] w5 H5].
  { intros w0 H0. exact H0. }
  apply (bind_fails Q); [exact H5| |intros yes w6 H6].
  { intros w0 H0. exact H0. }
  destruct yes; cbn [negb].
  - apply (bind_fails Q); [exact H6|apply Hlift|intros usd' w7 H7].
    now apply IH.
  - apply (bind_fails Q); [exact H6| |intros [] w7 H7; reflexivity].
    intros w0 H0. exact H0.
Qed.

(** A failing first part is the whole of a sequence. *)
Lemma bind_stops {A B} (m : M A) (k : A -> M B) (E : env) (w : world) :
  is_ok (fst (m E w)) = false ->
  is_ok (fst (bind m k E w)) = false /\ snd (bind m k E w) = snd (m E w).
Proof.
  unfold bind. destruct (m E w) as [[a|c|e] w1]; cbn; auto. discriminate.
Qed.

End RecipientCheck.

(** C7. When the directory of allowed recipients is what the client
    derives at the start of the loop and some payment's recipient is not in
    it, the orchestrator does not complete: it ends in an exception or an
    exit, and no exchange with the batch-pay endpoint is among the events
    it leaves. *)
Theorem unlisted_recipient_blocks_batch (E : env) (w w0 : world)
  (entity : string) (payments : list Payment) (allowed : list json)
  (Hallowed : RiseAPI.allowed_recipients E w = (Ok allowed, w0))
  (Hbad : existsb (fun p => negb (py_in (recipient p) allowed)) payments = true) :
  is_ok (fst (main.confirm_and_pay entity payments E w)) = false
  /\ exists evs,
      trace (snd (main.confirm_and_pay entity payments E w))
      = (trace w ++ evs)%list
      /\ Forall (fun ev => is_batch_call ev = false) evs.
Proof.
  assert (Hloop : is_ok (fst (main.confirm_each 0 payments [] E w)) = false).
  { destruct payments as [|p rest]; [discriminate|].
    pose proof (allowed_recipients_memoises E w w0 allowed Hallowed) as Hc.
    pose proof (confirm_each_rejects E allowed (p :: rest) Hbad 0%nat [] w0 Hc)
      as Hrej.
    cbn [main.confirm_each] in *. unfold bind at 1 in Hrej. unfold bind at 1.
    rewrite (allowed_recipients_cached E w0 allowed Hc) in Hrej.
    rewrite Hallowed. exact Hrej. }
  pose proof (confirm_each_extends (fun ev => is_batch_call ev = false)
                ltac:(intros [] H; try reflexivity; destruct ep; try reflexivity;
                      discriminate)
                payments 0%nat [] E w) as [Hev _].
  unfold main.confirm_and_pay.
  destruct (bind_stops (main.confirm_each 0 payments []) 
              (fun tree =>
                 log.warn "Check the batch summary:" ;;;
                 log.console_print (Tree entity tree) ;;;
                 total <- lift (main.usd_total payments None) ;;
                 tell (LogTotal (match total with
                                 | Some t => t
                                 | None => PyFloat.float_of_int 0
                                 end)) ;;;
                 yes <- log.prompt_yes_no "Confirm payment?" ;;
                 if negb yes then
                   log.error "Payment cancelled by user" ;;;
                   sys_exit 1
                 else
                   RiseAPI.batch_payment entity payments ;;;
                   let link := "https://arbiscan.io/address/" ++ py_lower entity ++ "#tokentxns" in
                   log.info ("Check explorer for the transaction: [link=" ++ link ++ "]"
                             ++ link ++ "[/link]") ;;;
                   log.okay "Done!")
              E w Hloop) as [H1 H2].
  split; [exact H1|].
  destruct Hev as (evs & Ht & F). exists evs. split; [|exact F].
  rewrite <- Ht. exact (f_equal trace H2).
Qed.

Lemma unlisted_recipient_blocks_batch_witness :
  is_ok (fst (main.confirm_and_pay "0xEntity"
                [ {| recipient := "0x00000000000000000000000000000000000000b2";
                     amount := 2500000; salt := Some 7 |};
                  {| recipient := "0x00000000000000000000000000000000000000ff";
                     amount := 1; salt := Some 7 |} ]
                fixture signed_in)) = false
  /\ exists evs,
      trace (snd (main.confirm_and_pay "0xEntity"
                    [ {| recipient := "0x00000000000000000000000000000000000000b2";
                         amount := 2500000; salt := Some 7 |};
                      {| recipient := "0x00000000000000000000000000000000000000ff";
                         amount := 1; salt := Some 7 |} ]
                    fixture signed_in))
      = (trace signed_in ++ evs)%list
      /\ Forall (fun ev => is_batch_call ev = false) evs.
Proof.
  apply (unlisted_recipient_blocks_batch fixture signed_in
           (snd (RiseAPI.allowed_recipients fixture signed_in)) "0xEntity" _
           [JStr "0x00000000000000000000000000000000000000a1";
            JStr "0x00000000000000000000000000000000000000b2";
            JStr "0x00000000000000000000000000000000000000b2"]).
  - vm_compute. reflexivity.
  - vm_compute. reflexivity.
Defined.

(* ===================================================================== *)
(** * The salt *)
(* ===================================================================== *)

Lemma quiet_carries (payments : list Payment) (ev : event) :
  quiet ev = true -> carries payments ev.
Proof.
  destruct ev; cbn; try discriminate; auto.
  destruct ep; cbn; try discriminate; auto.
Qed.

(** C9. Whatever salt is handed to the constructor, the payment that comes
    back carries a salt drawn from the generator by that one construction,
    a value in [0, 2^32), and the draw is the only event of the
    construction. From then on the pipeline (the confirmation loop and
    the batch submission) draws no further random value, and every
    batch-pay body carries the payments serialised as they were built,
    salt included. *)
Theorem salt_drawn_once (E : env) (w : world) (r : string) (a : Z)
  (s0 : option Z) (entity : string) (payments : list Payment) :
  (exists v,
      new_Payment r a s0 E w
      = (Ok {| recipient := r; amount := a; salt := Some v |},
         emit (RandBits (genrand_uint32 E (trace w))) w)
      /\ v = genrand_uint32 E (trace w) mod 2 ^ 32
      /\ 0 <= v < 2 ^ 32)
  /\ (exists evs,
        trace (snd (main.confirm_and_pay entity payments E w))
        = (trace w ++ evs)%list
        /\ Forall (carries payments) evs)
  /\ (forall p, In p payments ->
        py_getitem (RiseAPI.asdict p) "salt"
        = Ok (match salt p with Some s => JInt s | None => JNull end)).
Proof.
  split; [|split].
  - exists (genrand_uint32 E (trace w) mod 2 ^ 32).
    rewrite new_Payment_run. repeat split; try apply Z.mod_pos_bound; lia.
  - apply (confirm_and_pay_extends (carries payments)
             (quiet_carries payments) entity payments).
    intros m au payload rp H. exact H.
  - intros p _. reflexivity.
Qed.

(* ===================================================================== *)
(** * The directory of allowed recipients *)
(* ===================================================================== *)

Section Directory.

(** A request that the surroundings answer with a successful reply. *)
Lemma request_run (E : env) (w : world) (m : method) (ep : endpoint)
  (params payload : option json) (resp : Response) (data : json) :
  http E (trace w) m ep (Some ("Bearer " ++ token w)) params payload = Some resp ->
  reply_data resp = Some data ->
  RiseAPI._request m ep true params payload E w
  = (Ok data,
     emit (Http m ep (Some ("Bearer " ++ token w)) params payload (Some resp)) w).
Proof.
  intros Hhttp Hdata. unfold reply_data in Hdata.
  unfold RiseAPI._request, RiseAPI._auth_headers, RiseAPI._raise_for_status,
    bind, get_world, ret, observe, tell.
  rewrite Hhttp.
  destruct ((400 <=? status_code resp) && (status_code resp <? 600));
    [discriminate|].
  destruct (body resp) as [j|]; [|discriminate].
  destruct (py_getitem j "data") as [d| |]; try discriminate.
  now inversion Hdata.
Qed.

Variable E : env.
Variable members_of rise_ids_of : json -> list json.
Hypothesis Hmembers :
  forall id t auth,
    exists resp,
      http E t GET (TEAM_TALENT id) auth None None = Some resp
      /\ reply_data resp = Some (JList (members_of id)).
Hypothesis Hrise :
  forall id,
    Forall2 (fun m r => py_getitem m "riseId" = Ok r)
      (members_of id) (rise_ids_of id).

Lemma collect_payees_run (teams ids : list json) :
  Forall2 (fun team id => py_getitem team "id" = Ok id) teams ids ->
  forall (w : world) (acc : list json),
  exists w',
    RiseAPI.collect_payees teams acc E w
    = (Ok (acc ++ concat (map members_of ids))%list, w')
    /\ token w' = token w
    /\ account_cache w' = account_cache w
    /\ get_payee_cache w' = get_payee_cache w
    /\ payees_cache w' = payees_cache w
    /\ allowed_recipients_cache w' = allowed_recipients_cache w.
Proof.
  induction 1 as [|team id teams ids Hid _ IH]; intros w acc.
  - exists w. cbn. rewrite app_nil_r. repeat split.
  - cbn [RiseAPI.collect_payees map concat].
    destruct (Hmembers id (trace w) (Some ("Bearer " ++ token w)))
      as (resp & Hhttp & Hdata).
    unfold bind at 1. unfold lift at 1. rewrite Hid.
    unfold bind at 1. unfold RiseAPI.get_team_members.
    rewrite (request_run E w GET (TEAM_TALENT id) None None resp _ Hhttp Hdata).
    unfold bind at 1. unfold lift at 1. cbn [py_iter].
    destruct (IH (emit (Http GET (TEAM_TALENT id)
                          (Some ("Bearer " ++ token w)) None None (Some resp)) w)
                (acc ++ members_of id)%list)
      as (w' & -> & Ht & Ha & Hg & Hp & Hc).
    exists w'. rewrite <- app_assoc. repeat split; assumption.
Qed.

Lemma rise_ids_run (ps rs : list json) (w : world) :
  Forall2 (fun m r => py_getitem m "riseId" = Ok r) ps rs ->
  map_m (fun p => lift (py_getitem p "riseId")) ps E w = (Ok rs, w).
Proof.
  induction 1 as [|p r ps rs Hp _ IH]; [reflexivity|].
  rewrite map_m_cons. unfold lift at 1. rewrite Hp, IH. reflexivity.
Qed.

Lemma Forall2_concat {A B} (P : A -> B -> Prop) (xss : list (list A))
  (yss : list (list B)) :
  Forall2 (Forall2 P) xss yss -> Forall2 P (concat xss) (concat yss).
Proof.
  induction 1 as [|xs ys xss yss H _ IH]; cbn; [constructor|].
  now apply Forall2_app.
Qed.

Lemma allowed_recipients_run (w : world) (teams ids : list json) :
  payees_cache w = None ->
  allowed_recipients_cache w = None ->
  (exists resp,
      http E (trace w) GET TEAM_ENDPOINT (Some ("Bearer " ++ token w)) None None
      = Some resp
      /\ reply_data resp = Some (JList teams)) ->
  Forall2 (fun team id => py_getitem team "id" = Ok id) teams ids ->
  exists w',
    RiseAPI.allowed_recipients E w
    = (Ok (concat (map rise_ids_of ids)), w').
Proof.
  intros Hpc Hac (resp & Hhttp & Hdata) Hteams.
  unfold RiseAPI.allowed_recipients.
  unfold bind at 1. unfold get_world at 1. rewrite Hac.
  unfold bind at 1. unfold RiseAPI.payees.
  unfold bind at 1. unfold get_world at 1. rewrite Hpc.
  unfold bind at 1. unfold RiseAPI.get_teams.
  rewrite (request_run E w GET TEAM_ENDPOINT None None resp _ Hhttp Hdata).
  unfold bind at 1. unfold lift at 1. cbn [py_iter].
  destruct (collect_payees_run teams ids Hteams
              (emit (Http GET TEAM_ENDPOINT (Some ("Bearer " ++ token w))
                       None None (Some resp)) w) [])
    as (w1 & Hrun & _).
  unfold bind at 1. rewrite Hrun. cbn [app].
  unfold bind at 1. unfold RiseAPI.set_payees_cache at 1.
  unfold ret at 1. unfold bind at 1.
  rewrite (rise_ids_run _ (concat (map rise_ids_of ids))).
  - unfold bind. unfold RiseAPI.set_allowed_recipients_cache, ret.
    eexists. reflexivity.
  - apply Forall2_concat.
    clear -Hrise. induction ids as [|id ids IH]; cbn; constructor; auto.
Qed.

End Directory.

Lemma py_in_spec (s : string) (l : list json) :
  py_in s l = true <-> In (JStr s) l.
Proof.
  unfold py_in. rewrite existsb_exists. split.
  - intros (v & Hin & Hv). destruct v; try discriminate.
    cbn in Hv. apply String.eqb_eq in Hv. now subst.
  - intros Hin. exists (JStr s). split; [exact Hin|].
    cbn. apply String.eqb_refl.
Qed.

(** C8. When the team list and every team's member list are fetched as
    given, [allowed_recipients] is the list of the members' [riseId]
    values, team after team in the order fetched and member after member,
    one entry per member (so a member of two teams is listed twice); a
    membership test on it holds exactly for the strings that occur in it. *)
Theorem allowed_recipients_concatenates (E : env) (w : world)
  (teams ids : list json) (members_of rise_ids_of : json -> list json)
  (Hfresh : payees_cache w = None /\ allowed_recipients_cache w = None)
  (Hteams :
     exists resp,
       http E (trace w) GET TEAM_ENDPOINT (Some ("Bearer " ++ token w)) None None
       = Some resp
       /\ reply_data resp = Some (JList teams))
  (Hids : Forall2 (fun team id => py_getitem team "id" = Ok id) teams ids)
  (Hmembers :
     forall id t auth,
       exists resp,
         http E t GET (TEAM_TALENT id) auth None None = Some resp
         /\ reply_data resp = Some (JList (members_of id)))
  (Hrise :
     forall id,
       Forall2 (fun m r => py_getitem m "riseId" = Ok r)
         (members_of id) (rise_ids_of id)) :
  (exists w',
      RiseAPI.allowed_recipients E w
      = (Ok (concat (map rise_ids_of ids)), w'))
  /\ length (concat (map rise_ids_of ids))
     = length (concat (map members_of ids))
  /\ forall s,
      py_in s (concat (map rise_ids_of ids)) = true
      <-> In (JStr s) (concat (map rise_ids_of ids)).
Proof.
  destruct Hfresh as [Hpc Hac].
  split; [|split].
  - now apply (allowed_recipients_run E members_of rise_ids_of Hmembers Hrise
                 w teams ids).
  - symmetry. apply (Forall2_length (fun m r => py_getitem m "riseId" = Ok r)).
    apply Forall2_concat.
    clear -Hrise. induction ids as [|id ids IH]; cbn; constructor; auto.
  - intros s. apply py_in_spec.
Qed.

Lemma allowed_recipients_concatenates_witness :
  (exists w',
      RiseAPI.allowed_recipients fixture signed_in
      = (Ok (concat (map fixture_rise_ids [JStr "t1"; JStr "t2"])), w'))
  /\ length (concat (map fixture_rise_ids [JStr "t1"; JStr "t2"]))
     = length (concat (map fixture_members [JStr "t1"; JStr "t2"]))
  /\ forall s,
      py_in s (concat (map fixture_rise_ids [JStr "t1"; JStr "t2"])) = true
      <-> In (JStr s) (concat (map fixture_rise_ids [JStr "t1"; JStr "t2"])).
Proof.
  apply (allowed_recipients_concatenates fixture signed_in fixture_teams
           [JStr "t1"; JStr "t2"] fixture_members fixture_rise_ids).
  - split; reflexivity.
  - eexists. split; reflexivity.
  - repeat constructor.
  - intros id t auth. eexists. split; reflexivity.
  - intros id. destruct id; cbn; try constructor.
    destruct (String.eqb s "t1"); [repeat constructor|].
    destruct (String.eqb s "t2"); repeat constructor.
Defined.

(* ===================================================================== *)
(** * The two-step batch payment *)
(* ===================================================================== *)

Section BatchPayment.

Lemma account_cached (E : env) (w : world) (a : string) :
  account_cache w = Some a -> FrameSigner.account E w = (Ok a, w).
Proof.
  intros H. unfold FrameSigner.account, bind, get_world. now rewrite H.
Qed.

Lemma sign_typed_run (E : env) (w : world) (wallet sig : string) (msg : json) :
  account_cache w = Some wallet ->
  eth_signTypedData_v4 E (trace w) wallet msg = RpcResult sig ->
  FrameSigner.sign_typed msg E w
  = (Ok sig, emit (RpcSignTyped wallet msg (RpcResult sig)) w).
Proof.
  intros Hacc Hsig. unfold FrameSigner.sign_typed. unfold bind at 1.
  rewrite (account_cached E w wallet Hacc).
  unfold bind, observe, tell, ret. now rewrite Hsig.
Qed.

(** Whatever the reply, a request leaves exactly its exchange behind. *)
Lemma request_trace (E : env) (w : world) (m : method) (ep : endpoint)
  (params payload : option json) :
  trace (snd (RiseAPI._request m ep true params payload E w))
  = (trace w
     ++ [Http m ep (Some ("Bearer " ++ token w)%string) params payload
           (http E (trace w) m ep (Some ("Bearer " ++ token w)%string) params payload)])%list.
Proof.
  unfold RiseAPI._request, RiseAPI._auth_headers, RiseAPI._raise_for_status,
    bind, get_world, ret, observe, tell.
  cbn [snd fst].
  destruct (http E (trace w) m ep _ params payload) as [resp|]; [|reflexivity].
  destruct ((400 <=? status_code resp) && (status_code resp <? 600)).
  - destruct (body resp) as [j|]; [|reflexivity].
    destruct (py_getitem j "message") as [x|c|[]]; reflexivity.
  - destruct (body resp) as [j|]; [|reflexivity].
    destruct (py_getitem j "data") as [x|c|[]]; reflexivity.
Qed.

Lemma bind_ret_world {A} (m : M A) (E : env) (w : world) :
  snd (bind m (fun _ => ret tt) E w) = snd (m E w).
Proof. unfold bind. destruct (m E w) as [[x|c|e] w1]; reflexivity. Qed.

Lemma get_message_run (E : env) (w : world) (wallet rise_id : string)
  (payments : list Payment) (resp : Response) (data : json) :
  account_cache w = Some wallet ->
  http E (trace w) PUT BATCH_PAY (Some ("Bearer " ++ token w)%string) None
    (Some (JObj (batch_fields wallet rise_id payments))) = Some resp ->
  reply_data resp = Some data ->
  RiseAPI._get_batch_payment_message rise_id payments E w
  = (Ok data,
     emit (Http PUT BATCH_PAY (Some ("Bearer " ++ token w)%string) None
             (Some (JObj (batch_fields wallet rise_id payments)))
             (Some resp)) w).
Proof.
  intros Hacc Hput Hdata.
  unfold RiseAPI._get_batch_payment_message, bind.
  rewrite (account_cached E w wallet Hacc).
  exact (request_run E w PUT BATCH_PAY None _ resp data Hput Hdata).
Qed.

Lemma send_trace (E : env) (w : world) (wallet rise_id sig : string)
  (payments : list Payment) (request : json) :
  account_cache w = Some wallet ->
  exists reply,
    trace (snd (RiseAPI._send_batch_payment rise_id payments request sig E w))
    = (trace w
       ++ [Http POST BATCH_PAY (Some ("Bearer " ++ token w)%string) None
             (Some (JObj (batch_fields wallet rise_id payments
                          ++ [("request", request);
                              ("signature", JStr sig)])))
             reply])%list.
Proof.
  intros Hacc. unfold RiseAPI._send_batch_payment. unfold bind at 1.
  rewrite (account_cached E w wallet Hacc).
  rewrite bind_ret_world.
  eexists. exact (request_trace E w POST BATCH_PAY None _).
Qed.

End BatchPayment.

(** C1 (as stated, refuted). The reply to the unsigned request carries a
    typed-data structure with a [message] member; what is handed to
    [signTyped] is the whole structure, not that member, and no call signs
    the member. *)
Lemma signed_object_is_not_message :
  let payments := [ {| recipient := "0x00000000000000000000000000000000000000b2";
                       amount := 2500000; salt := Some 7 |} ] in
  let w' := snd (RiseAPI.batch_payment "0xEntity" payments fixture signed_in) in
  payments <> []
  /\ py_getitem fixture_typed_data "message" = Ok fixture_message
  /\ In (RpcSignTyped "0xWallet" fixture_typed_data (RpcResult "0xsigned712"))
       (trace w')
  /\ fixture_typed_data <> fixture_message
  /\ forall acc msg r,
       In (RpcSignTyped acc msg r) (trace w') -> msg <> fixture_message.
Proof.
  cbv zeta. split; [discriminate|]. split; [reflexivity|].
  split; [vm_compute; auto|]. split; [discriminate|].
  intros acc msg r Hin. vm_compute in Hin.
  destruct Hin as [H|[H|[H|[H|[]]]]]; try discriminate.
  inversion H; subst. discriminate.
Qed.

(** C1 (amended). For every payments list: when the unsigned-request PUT is
    answered with a payload that has a [message] member and the signing
    agent signs, the object handed to [signTyped] is the whole payload of
    that reply, and the POST that follows carries the wallet, the
    organisation id, the total amount as a decimal string, the payments,
    the payload's [message] member in its [request] field and the
    signature; these four events are all that [batch_payment] leaves. *)
Theorem batch_payment_signs_reply (E : env) (w : world)
  (wallet rise_id sig : string) (payments : list Payment)
  (resp : Response) (data message : json)
  (Hacc : account_cache w = Some wallet)
  (Hput : http E (trace w) PUT BATCH_PAY (Some ("Bearer " ++ token w)%string) None
            (Some (JObj (batch_fields wallet rise_id payments))) = Some resp)
  (Hdata : reply_data resp = Some data)
  (Hmsg : py_getitem data "message" = Ok message)
  (Hsig : eth_signTypedData_v4 E
            (trace w
             ++ [Http PUT BATCH_PAY (Some ("Bearer " ++ token w)%string) None
                   (Some (JObj (batch_fields wallet rise_id payments)))
                   (Some resp);
                 Log "[info][info][/info] Sign transaction to send batch payment"])%list
            wallet data = RpcResult sig) :
  exists reply,
    trace (snd (RiseAPI.batch_payment rise_id payments E w))
    = (trace w
       ++ [Http PUT BATCH_PAY (Some ("Bearer " ++ token w)%string) None
             (Some (JObj (batch_fields wallet rise_id payments)))
             (Some resp);
           Log "[info][info][/info] Sign transaction to send batch payment";
           RpcSignTyped wallet data (RpcResult sig);
           Http POST BATCH_PAY (Some ("Bearer " ++ token w)%string) None
             (Some (JObj (batch_fields wallet rise_id payments
                          ++ [("request", message);
                              ("signature", JStr sig)])))
             reply])%list.
Proof.
  unfold RiseAPI.batch_payment. unfold bind at 1.
  rewrite (get_message_run E w wallet rise_id payments resp data Hacc Hput Hdata).
  set (w1 := emit _ w).
  unfold bind at 1. unfold log.info, tell at 1.
  set (w2 := emit _ w1).
  assert (Hsig' : eth_signTypedData_v4 E (trace w2) wallet data = RpcResult sig).
  { subst w2 w1. cbn [trace emit]. rewrite <- app_assoc. exact Hsig. }
  unfold bind at 1.
  rewrite (sign_typed_run E w2 wallet sig data Hacc Hsig').
  set (w3 := emit _ w2).
  unfold bind at 1. unfold lift at 1. rewrite Hmsg.
  destruct (send_trace E w3 wallet rise_id sig payments message Hacc)
    as (reply & Ht).
  exists reply. rewrite Ht. subst w3 w2 w1. cbn [trace emit token].
  now rewrite <- !app_assoc.
Qed.

Lemma batch_payment_signs_reply_witness :
  exists reply,
    trace (snd (RiseAPI.batch_payment "0xEntity"
                  [ {| recipient := "0x00000000000000000000000000000000000000b2";
                       amount := 2500000; salt := Some 7 |} ]
                  fixture signed_in))
    = (trace signed_in
       ++ [Http PUT BATCH_PAY (Some ("Bearer " ++ token signed_in)%string) None
             (Some (JObj (batch_fields "0xWallet" "0xEntity"
                            [ {| recipient := "0x00000000000000000000000000000000000000b2";
                                 amount := 2500000; salt := Some 7 |} ])))
             (Some {| status_code := 200; text := "";
                      body := Some (JObj [("data", fixture_typed_data)]) |});
           Log "[info][info][/info] Sign transaction to send batch payment";
           RpcSignTyped "0xWallet" fixture_typed_data (RpcResult "0xsigned712");
           Http POST BATCH_PAY (Some ("Bearer " ++ token signed_in)%string) None
             (Some (JObj (batch_fields "0xWallet" "0xEntity"
                            [ {| recipient := "0x00000000000000000000000000000000000000b2";
                                 amount := 2500000; salt := Some 7 |} ]
                          ++ [("request", fixture_message);
                              ("signature", JStr "0xsigned712")])))
             reply])%list.
Proof.
  apply (batch_payment_signs_reply fixture signed_in "0xWallet" "0xEntity"
           "0xsigned712" _ _ fixture_typed_data fixture_message);
    reflexivity.
Defined.

(* ===================================================================== *)
(** * Requests, replies and failures *)
(* ===================================================================== *)

Section Requests.

(** What [_request] does, case by case on the reply. *)
Lemma request_cases (E : env) (w : world) (m : method) (ep : endpoint)
  (auth : bool) (params payload : option json) :
  RiseAPI._request m ep auth params payload E w =
    let a := authorization_of auth w in
    let reply := http E (trace w) m ep a params payload in
    let w' := emit (Http m ep a params payload reply) w in
    match reply with
    | None => (Raise RequestException, w')
    | Some resp =>
        if (400 <=? status_code resp) && (status_code resp <? 600) then
          match body resp with
          | None => (Raise (HttpFailure m ep None), w')
          | Some j =>
              match py_getitem j "message" with
              | Ok error => (Raise (HttpFailure m ep (Some error)), w')
              | Raise (KeyError _) => (Raise (HttpFailure m ep None), w')
              | Raise e => (Raise e, w')
              | Exit c => (Exit c, w')
              end
          end
        else
          match body resp with
          | None => (Raise (DecodeFailure (text resp)), w')
          | Some j =>
              match py_getitem j "data" with
              | Ok data => (Ok data, w')
              | Raise (KeyError _) => (Raise (NoDataField j), w')
              | Raise e => (Raise e, w')
              | Exit c => (Exit c, w')
              end
          end
    end.
Proof.
  unfold RiseAPI._request, RiseAPI._auth_headers, RiseAPI._raise_for_status,
    authorization_of, bind, get_world, ret, observe, tell.
  destruct auth; cbv zeta;
    (destruct (http E (trace w) m ep _ params payload) as [resp|];
     [|reflexivity]);
    (destruct ((400 <=? status_code resp) && (status_code resp <? 600));
     [ destruct (body resp) as [j|]; [|reflexivity];
       destruct (py_getitem j "message") as [x|c|[]]; reflexivity
     | destruct (body resp) as [j|]; [|reflexivity];
       destruct (py_getitem j "data") as [x|c|[]]; reflexivity ]).
Qed.

Lemma py_getitem_never_exits (j : json) (k : string) (c : Z) :
  py_getitem j k <> Exit c.
Proof.
  destruct j; cbn; try discriminate.
  destruct (assoc k members); discriminate.
Qed.

End Requests.

(** X1. [_request] returns a payload exactly when the transport delivered
    a reply whose status is no client or server error and whose body is a
    JSON object with a [data] member; the payload is that member, and the
    only change to the world is the one exchange it records. *)
Theorem request_returns_iff (E : env) (w w' : world) (m : method)
  (ep : endpoint) (auth : bool) (params payload : option json) (data : json) :
  RiseAPI._request m ep auth params payload E w = (Ok data, w')
  <-> exists resp,
        http E (trace w) m ep (authorization_of auth w) params payload = Some resp
        /\ reply_data resp = Some data
        /\ w' = emit (Http m ep (authorization_of auth w) params payload
                        (Some resp)) w.
Proof.
  rewrite request_cases. cbv zeta. unfold reply_data. split.
  - destruct (http E (trace w) m ep _ params payload) as [resp|];
      [|discriminate].
    destruct ((400 <=? status_code resp) && (status_code resp <? 600)) eqn:Hc.
    + destruct (body resp) as [j|]; [|discriminate].
      destruct (py_getitem j "message") as [x|c|[]]; discriminate.
    + destruct (body resp) as [j|] eqn:Hb; [|discriminate].
      destruct (py_getitem j "data") as [x|c|[]] eqn:Hj; try discriminate.
      intros H. inversion H; subst. exists resp.
      rewrite Hc, Hb, Hj. repeat split.
  - intros (r & -> & Hd & ->).
    destruct ((400 <=? status_code r) && (status_code r <? 600));
      [discriminate|].
    destruct (body r) as [j|]; [|discriminate].
    destruct (py_getitem j "data") as [x|c|e]; try discriminate.
    now inversion Hd.
Qed.

(** X2. On a reply with an error status (400 to 599) [_request] never
    returns, even when the body has a [data] member. The exception carries
    the [message] member of a JSON-object body; it carries no detail when
    the body is not JSON or is an object without [message]; a JSON body
    that is no object escapes as a [TypeError]. *)
Theorem request_error_status (E : env) (w : world) (m : method)
  (ep : endpoint) (auth : bool) (params payload : option json)
  (resp : Response)
  (Hreply : http E (trace w) m ep (authorization_of auth w) params payload
            = Some resp)
  (Hstatus : 400 <= status_code resp < 600) :
  fst (RiseAPI._request m ep auth params payload E w)
  = match body resp with
    | None => Raise (HttpFailure m ep None)
    | Some (JObj members) =>
        Raise (HttpFailure m ep (assoc "message" members))
    | Some _ => Raise TypeError
    end.
Proof.
  rewrite request_cases. cbv zeta. rewrite Hreply.
  replace ((400 <=? status_code resp) && (status_code resp <? 600)) with true
    by (symmetry; apply andb_true_iff; split;
        [apply Z.leb_le | apply Z.ltb_lt]; lia).
  destruct (body resp) as [j|]; [|reflexivity].
  destruct j; try reflexivity.
  cbn. destruct (assoc "message" members); reflexivity.
Qed.

Lemma request_error_status_witness :
  fst (RiseAPI._request PUT BATCH_PAY true None (Some JNull) refusing signed_in)
  = Raise (HttpFailure PUT BATCH_PAY (Some (JStr "Forbidden"))).
Proof.
  apply (request_error_status refusing signed_in PUT BATCH_PAY true None
           (Some JNull)
           {| status_code := 403; text := "{...}";
              body := Some (JObj [("message", JStr "Forbidden");
                                  ("data", JNull)]) |}).
  - reflexivity.
  - cbn. lia.
Defined.

(** X3. Whatever the reply and whatever the outcome, one call of
    [_request] records exactly one exchange: with the header
    [Bearer <token>] when [auth] is set and with no [Authorization] header
    otherwise. It changes neither the token nor any memoised attribute. *)
Theorem request_one_exchange (E : env) (w : world) (m : method)
  (ep : endpoint) (auth : bool) (params payload : option json) :
  let w' := snd (RiseAPI._request m ep auth params payload E w) in
  trace w'
  = (trace w
     ++ [Http m ep (if auth then Some ("Bearer " ++ token w)%string else None)
           params payload
           (http E (trace w) m ep
              (if auth then Some ("Bearer " ++ token w)%string else None)
              params payload)])%list
  /\ token w' = token w
  /\ account_cache w' = account_cache w
  /\ payees_cache w' = payees_cache w
  /\ allowed_recipients_cache w' = allowed_recipients_cache w
  /\ get_payee_cache w' = get_payee_cache w.
Proof.
  cbv zeta. rewrite request_cases. cbv zeta. unfold authorization_of.
  destruct (http E (trace w) m ep _ params payload) as [resp|];
    [|repeat split].
  destruct ((400 <=? status_code resp) && (status_code resp <? 600)).
  - destruct (body resp) as [j|]; [|repeat split].
    destruct (py_getitem j "message") as [x|c|[]]; repeat split.
  - destruct (body resp) as [j|]; [|repeat split].
    destruct (py_getitem j "data") as [x|c|[]]; repeat split.
Qed.

(* ===================================================================== *)
(** * How a batch payment can end *)
(* ===================================================================== *)

Section BatchOutcomes.

Lemma request_is_ok (E : env) (w : world) (m : method) (ep : endpoint)
  (auth : bool) (params payload : option json) :
  is_ok (fst (RiseAPI._request m ep auth params payload E w))
  = match http E (trace w) m ep (authorization_of auth w) params payload with
    | Some resp =>
        match reply_data resp with Some _ => true | None => false end
    | None => false
    end.
Proof.
  rewrite request_cases. cbv zeta. unfold reply_data.
  destruct (http E (trace w) m ep _ params payload) as [resp|]; [|reflexivity].
  destruct ((400 <=? status_code resp) && (status_code resp <? 600)).
  - destruct (body resp) as [j|]; [|reflexivity].
    destruct (py_getitem j "message") as [x|c|[]]; reflexivity.
  - destruct (body resp) as [j|]; [|reflexivity].
    destruct (py_getitem j "data") as [x|c|[]]; reflexivity.
Qed.

(** Up to the request for the signature. *)
Lemma batch_payment_prefix (E : env) (w : world) (wallet rise_id : string)
  (payments : list Payment) (resp : Response) (data : json) :
  account_cache w = Some wallet ->
  http E (trace w) PUT BATCH_PAY (Some ("Bearer " ++ token w)) None
    (Some (JObj (batch_fields wallet rise_id payments))) = Some resp ->
  reply_data resp = Some data ->
  RiseAPI.batch_payment rise_id payments E w
  = (signature <- FrameSigner.sign_typed data ;;
     message <- lift (py_getitem data "message") ;;
     RiseAPI._send_batch_payment rise_id payments message signature)
      E (emit sign_line
           (emit (put_exchange w wallet rise_id payments (Some resp)) w)).
Proof.
  intros Hacc Hput Hdata. unfold RiseAPI.batch_payment. unfold bind at 1.
  rewrite (get_message_run E w wallet rise_id payments resp data Hacc Hput Hdata).
  unfold bind at 1. reflexivity.
Qed.


End BatchOutcomes.

(** X4. When the unsigned-request PUT is not answered with a payload (the
    transport fails, the status is an error, or the body has no [data]),
    [batch_payment] does not complete and the PUT is the only event it
    leaves: no signature is asked for and nothing is posted. *)
Theorem batch_payment_put_rejected (E : env) (w : world)
  (wallet rise_id : string) (payments : list Payment)
  (Hacc : account_cache w = Some wallet)
  (Hput : match http E (trace w) PUT BATCH_PAY (Some ("Bearer " ++ token w))
                  None (Some (JObj (batch_fields wallet rise_id payments))) with
          | Some resp => reply_data resp = None
          | None => True
          end) :
  is_ok (fst (RiseAPI.batch_payment rise_id payments E w)) = false
  /\ trace (snd (RiseAPI.batch_payment rise_id payments E w))
     = (trace w
        ++ [put_exchange w wallet rise_id payments
              (http E (trace w) PUT BATCH_PAY (Some ("Bearer " ++ token w)%string)
                 None (Some (JObj (batch_fields wallet rise_id payments))))])%list.
Proof.
  assert (Hmsg : RiseAPI._get_batch_payment_message rise_id payments E w
                 = RiseAPI._request PUT BATCH_PAY true None
                     (Some (JObj (batch_fields wallet rise_id payments))) E w).
  { unfold RiseAPI._get_batch_payment_message, bind.
    now rewrite (account_cached E w wallet Hacc). }
  assert (Hfail : is_ok (fst (RiseAPI._get_batch_payment_message rise_id
                                payments E w)) = false).
  { rewrite Hmsg, request_is_ok. unfold authorization_of.
    destruct (http E (trace w) PUT BATCH_PAY _ None _) as [resp|];
      [now rewrite Hput | reflexivity]. }
  unfold RiseAPI.batch_payment.
  destruct (bind_stops (RiseAPI._get_batch_payment_message rise_id payments)
              (fun request =>
                 log.info "Sign transaction to send batch payment" ;;;
                 signature <- FrameSigner.sign_typed request ;;
                 message <- lift (py_getitem request "message") ;;
                 RiseAPI._send_batch_payment rise_id payments message signature)
              E w Hfail) as [H1 H2].
  split; [exact H1|]. rewrite H2, Hmsg.
  apply (request_one_exchange E w PUT BATCH_PAY true None).
Qed.

Lemma batch_payment_put_rejected_witness :
  is_ok (fst (RiseAPI.batch_payment "0xEntity" [to_bob] refusing signed_in))
  = false
  /\ trace (snd (RiseAPI.batch_payment "0xEntity" [to_bob] refusing signed_in))
     = (trace signed_in
        ++ [put_exchange signed_in "0xWallet" "0xEntity" [to_bob]
              (http refusing (trace signed_in) PUT BATCH_PAY
                 (Some ("Bearer " ++ token signed_in)%string) None
                 (Some (JObj (batch_fields "0xWallet" "0xEntity" [to_bob]))))])%list.
Proof.
  apply (batch_payment_put_rejected refusing signed_in "0xWallet" "0xEntity"
           [to_bob]); reflexivity.
Defined.



(** X6. When the payload of the PUT reply has no [message] member,
    [batch_payment] still asks the agent for a signature over the payload
    first and only then raises; the signed payload is never posted. *)
Theorem batch_payment_without_message (E : env) (w : world)
  (wallet rise_id sig : string) (payments : list Payment)
  (resp : Response) (data : json) (e : exn)
  (Hacc : account_cache w = Some wallet)
  (Hput : http E (trace w) PUT BATCH_PAY (Some ("Bearer " ++ token w)) None
            (Some (JObj (batch_fields wallet rise_id payments))) = Some resp)
  (Hdata : reply_data resp = Some data)
  (Hmsg : py_getitem data "message" = Raise e)
  (Hsig : eth_signTypedData_v4 E
            (trace w
             ++ [put_exchange w wallet rise_id payments (Some resp);
                 sign_line])%list
            wallet data = RpcResult sig) :
  fst (RiseAPI.batch_payment rise_id payments E w) = Raise e
  /\ trace (snd (RiseAPI.batch_payment rise_id payments E w))
     = (trace w
        ++ [put_exchange w wallet rise_id payments (Some resp);
            sign_line;
            RpcSignTyped wallet data (RpcResult sig)])%list.
Proof.
  rewrite (batch_payment_prefix E w wallet rise_id payments resp data
             Hacc Hput Hdata).
  set (w2 := emit sign_line _).
  assert (Hsig' : eth_signTypedData_v4 E (trace w2) wallet data = RpcResult sig).
  { subst w2. cbn [trace emit]. rewrite <- app_assoc. exact Hsig. }
  assert (Hrun :
            (signature <- FrameSigner.sign_typed data ;;
             message <- lift (py_getitem data "message") ;;
             RiseAPI._send_batch_payment rise_id payments message signature)
              E w2
            = (Raise e, emit (RpcSignTyped wallet data (RpcResult sig)) w2)).
  { unfold bind at 1.
    rewrite (sign_typed_run E w2 wallet sig data Hacc Hsig').
    unfold bind at 1. unfold lift at 1. now rewrite Hmsg. }
  rewrite Hrun. split; [reflexivity|]. subst w2. cbn [snd trace emit].
  now rewrite <- !app_assoc.
Qed.

Lemma batch_payment_without_message_witness :
  fst (RiseAPI.batch_payment "0xEntity" [to_bob] headless signed_in)
  = Raise (KeyError "message")
  /\ trace (snd (RiseAPI.batch_payment "0xEntity" [to_bob] headless signed_in))
     = (trace signed_in
        ++ [put_exchange signed_in "0xWallet" "0xEntity" [to_bob]
              (Some {| status_code := 200; text := "";
                       body := Some (JObj [("data",
                                 JObj [("primaryType", JStr "BatchPay")])]) |});
            sign_line;
            RpcSignTyped "0xWallet" (JObj [("primaryType", JStr "BatchPay")])
              (RpcResult "0xsigned712")])%list.
Proof.
  apply (batch_payment_without_message headless signed_in "0xWallet" "0xEntity"
           "0xsigned712" [to_bob] _ (JObj [("primaryType", JStr "BatchPay")]));
    reflexivity.
Defined.

(** X7. Once the payload is signed the POST is issued, and [batch_payment]
    completes exactly when the reply to that POST is itself a payload
    reply: a success status with a JSON body that has a [data] member. A
    POST answered with success but without such a body makes
    [batch_payment] raise although the batch was submitted. *)
Theorem batch_payment_completes_iff (E : env) (w : world)
  (wallet rise_id sig : string) (payments : list Payment)
  (resp : Response) (data message : json)
  (Hacc : account_cache w = Some wallet)
  (Hput : http E (trace w) PUT BATCH_PAY (Some ("Bearer " ++ token w)) None
            (Some (JObj (batch_fields wallet rise_id payments))) = Some resp)
  (Hdata : reply_data resp = Some data)
  (Hmsg : py_getitem data "message" = Ok message)
  (Hsig : eth_signTypedData_v4 E
            (trace w
             ++ [put_exchange w wallet rise_id payments (Some resp);
                 sign_line])%list
            wallet data = RpcResult sig) :
  is_ok (fst (RiseAPI.batch_payment rise_id payments E w))
  = match http E
            (trace w
             ++ [put_exchange w wallet rise_id payments (Some resp);
                 sign_line;
                 RpcSignTyped wallet data (RpcResult sig)])%list
            POST BATCH_PAY (Some ("Bearer " ++ token w)%string) None
            (Some (JObj (batch_fields wallet rise_id payments
                         ++ [("request", message);
                             ("signature", JStr sig)]))) with
    | Some reply =>
        match reply_data reply with Some _ => true | None => false end
    | None => false
    end.
Proof.
  rewrite (batch_payment_prefix E w wallet rise_id payments resp data
             Hacc Hput Hdata).
  set (w2 := emit sign_line _).
  assert (Hsig' : eth_signTypedData_v4 E (trace w2) wallet data = RpcResult sig).
  { subst w2. cbn [trace emit]. rewrite <- app_assoc. exact Hsig. }
  unfold bind at 1.
  rewrite (sign_typed_run E w2 wallet sig data Hacc Hsig').
  set (w3 := emit _ w2).
  unfold bind at 1. unfold lift at 1. rewrite Hmsg.
  unfold RiseAPI._send_batch_payment. unfold bind at 1.
  rewrite (account_cached E w3 wallet Hacc).
  assert (Hok : forall (m : M json),
             is_ok (fst (bind m (fun _ => ret tt) E w3)) = is_ok (fst (m E w3))).
  { intros m. unfold bind. destruct (m E w3) as [[x|c|e] w4]; reflexivity. }
  rewrite Hok, request_is_ok. unfold authorization_of.
  subst w3 w2. cbn [trace emit token].
  now rewrite <- !app_assoc.
Qed.

Lemma batch_payment_completes_iff_witness :
  is_ok (fst (RiseAPI.batch_payment "0xEntity" [to_bob] terse signed_in))
  = false.
Proof.
  exact (batch_payment_completes_iff terse signed_in "0xWallet" "0xEntity"
           "0xsigned712" [to_bob]
           {| status_code := 200; text := "";
              body := Some (JObj [("data", fixture_typed_data)]) |}
           fixture_typed_data fixture_message
           eq_refl eq_refl eq_refl eq_refl eq_refl).
Defined.

(* ===================================================================== *)
(** * Ingestion as a whole *)
(* ===================================================================== *)

Section WholeFile.
Import datasource.

Lemma is_ok_int_of_float (x : spec_float) :
  is_ok (PyFloat.int_of_float x) = PyFloat.is_finite x.
Proof. destruct x; reflexivity. Qed.

(** A row yields a payment exactly when it is accepted. *)
Lemma payment_of_row_is_ok (E : env) (w : world) (row : gmap string pyval) :
  is_ok (fst (payment_of_row row E w)) = row_accepted row.
Proof.
  rewrite payment_of_row_run. unfold row_accepted.
  destruct (row !! "outgoing_token") as [tok|]; [|reflexivity].
  destruct (eq_str tok "DAI"); cbn [negb andb].
  2: { destruct (row !! "outgoing_amount") as [[|s]|];
         destruct (row !! "Description") as [[|d]|]; reflexivity. }
  destruct (row !! "outgoing_amount") as [[|s]|].
  - destruct (row !! "Description") as [[|d]|]; reflexivity.
  - rewrite payment_amount_cases.
    destruct (PyFloat.float_of_str s) as [f|].
    + rewrite <- (is_ok_int_of_float (PyFloat.mul f million)).
      destruct (PyFloat.int_of_float (PyFloat.mul f million)) as [a|c|e];
        cbn [is_ok andb];
        destruct (row !! "Description") as [[|d]|]; try reflexivity.
      rewrite find_rise_id_cases.
      destruct (findall d) as [|r [|r' l]]; reflexivity.
    + destruct (row !! "Description") as [[|d]|]; reflexivity.
  - destruct (row !! "Description") as [[|d]|]; reflexivity.
Qed.

Lemma map_m_is_ok {A B} (f : A -> M B) (ok : A -> bool) (E : env) :
  (forall x w, is_ok (fst (f x E w)) = ok x) ->
  forall xs w, is_ok (fst (map_m f xs E w)) = forallb ok xs.
Proof.
  intros Hf. induction xs as [|x xs IH]; intros w; [reflexivity|].
  rewrite map_m_cons. cbn [forallb]. rewrite <- (Hf x w).
  destruct (f x E w) as [[y|c|e] w1]; cbn [fst is_ok andb]; try reflexivity.
  rewrite <- (IH w1).
  destruct (map_m f xs E w1) as [[ys|c|e] w2]; reflexivity.
Qed.

(** What lies behind the first element that fails is never run. *)
Lemma map_m_stops {A B} (f : A -> M B) (E : env) (bad : A) :
  (forall w, is_ok (fst (f bad E w)) = false) ->
  forall pre rest w,
    map_m f (pre ++ bad :: rest) E w = map_m f (pre ++ [bad]) E w.
Proof.
  intros Hbad. induction pre as [|x pre IH]; intros rest w.
  - cbn [app]. rewrite !map_m_cons. specialize (Hbad w).
    destruct (f bad E w) as [[y|c|e] w1]; [discriminate|reflexivity..].
  - cbn [app]. rewrite !map_m_cons.
    destruct (f x E w) as [[y|c|e] w1]; try reflexivity.
    now rewrite IH.
Qed.

(** The draws a run of [map_m payment_of_row] makes on accepted rows. *)
Lemma accepted_rows_run (E : env) (rows : list (gmap string pyval)) :
  forallb row_accepted rows = true ->
  forall w,
  exists ps draws,
    payments_from_csv rows E w
    = (Ok ps,
       {| trace := (trace w ++ map RandBits draws)%list;
          token := token w;
          account_cache := account_cache w;
          payees_cache := payees_cache w;
          allowed_recipients_cache := allowed_recipients_cache w;
          get_payee_cache := get_payee_cache w |})
    /\ length ps = length rows
    /\ map salt ps = map (fun d => Some (d mod 2 ^ 32)) draws.
Proof.
  unfold payments_from_csv.
  induction rows as [|row rows IH]; intros Hrows w.
  - exists [], []. cbn. rewrite app_nil_r. destruct w. repeat split.
  - cbn [forallb] in Hrows. apply andb_true_iff in Hrows as [Hrow Hrest].
    rewrite map_m_cons.
    destruct (payment_of_row_accepted E w row Hrow) as (p & Hp).
    pose proof (payment_of_row_ok E w _ row p Hp)
      as (_ & s & d & f & _ & _ & _ & _ & _ & Hsalt & _).
    rewrite Hp.
    destruct (IH Hrest (emit (RandBits (genrand_uint32 E (trace w))) w))
      as (ps & draws & -> & Hlen & Hsalts).
    exists (p :: ps), (genrand_uint32 E (trace w) :: draws).
    cbn [trace emit token account_cache payees_cache
           allowed_recipients_cache get_payee_cache map length].
    rewrite <- app_assoc. cbn [app].
    repeat split; [now rewrite Hlen | now rewrite Hsalt, Hsalts].
Qed.

End WholeFile.

(** X8. Ingestion is all or nothing, and decided row by row:
    [payments_from_csv] returns a list exactly when every row declares
    DAI, has an amount that reads as a float whose product with [10^6] is
    finite, and has exactly one address match in its description. *)
Theorem ingestion_accepts_iff (E : env) (w : world)
  (rows : list (gmap string pyval)) :
  is_ok (fst (datasource.payments_from_csv rows E w))
  = forallb row_accepted rows.
Proof.
  unfold datasource.payments_from_csv.
  apply map_m_is_ok. intros row w1. apply payment_of_row_is_ok.
Qed.

(** X9. On a file of accepted rows ingestion returns one payment per row
    and leaves nothing behind but one draw from the random generator per
    row, in row order: no log line, no request, no change to the token or
    to a memoised attribute. The salts are the draws, reduced to 32 bits. *)
Theorem ingestion_only_draws (E : env) (w : world)
  (rows : list (gmap string pyval))
  (Hrows : forallb row_accepted rows = true) :
  exists ps draws,
    datasource.payments_from_csv rows E w
    = (Ok ps,
       {| trace := (trace w ++ map RandBits draws)%list;
          token := token w;
          account_cache := account_cache w;
          payees_cache := payees_cache w;
          allowed_recipients_cache := allowed_recipients_cache w;
          get_payee_cache := get_payee_cache w |})
    /\ length ps = length rows
    /\ length draws = length rows
    /\ map salt ps = map (fun d => Some (d mod 2 ^ 32)) draws.
Proof.
  destruct (accepted_rows_run E rows Hrows w) as (ps & draws & Hrun & Hlen & Hs).
  exists ps, draws. repeat split; auto.
  rewrite <- Hlen, <- (length_map salt ps), Hs. now rewrite length_map.
Qed.

Lemma ingestion_only_draws_witness :
  exists ps draws,
    datasource.payments_from_csv
      [csv_row "2.50" "DAI" "pay to 0xAbCdEf0123456789aBcDeF0123456789aBCDeF01";
       csv_row "1" "DAI" "0x00000000000000000000000000000000000000b2 fee"]
      fixture signed_in
    = (Ok ps,
       {| trace := (trace signed_in ++ map RandBits draws)%list;
          token := token signed_in;
          account_cache := account_cache signed_in;
          payees_cache := payees_cache signed_in;
          allowed_recipients_cache := allowed_recipients_cache signed_in;
          get_payee_cache := get_payee_cache signed_in |})
    /\ length ps = 2%nat
    /\ length draws = 2%nat
    /\ map salt ps = map (fun d => Some (d mod 2 ^ 32)) draws.
Proof.
  apply (ingestion_only_draws fixture signed_in
           [csv_row "2.50" "DAI" "pay to 0xAbCdEf0123456789aBcDeF0123456789aBCDeF01";
            csv_row "1" "DAI" "0x00000000000000000000000000000000000000b2 fee"]).
  vm_compute. reflexivity.
Defined.

(** X10. Ingestion stops at the first row it rejects: the rows behind a
    rejected row change neither the outcome nor what is logged. *)
Theorem ingestion_stops_at_rejected_row (E : env) (w : world)
  (pre rest : list (gmap string pyval)) (bad : gmap string pyval)
  (Hbad : row_accepted bad = false) :
  datasource.payments_from_csv (pre ++ bad :: rest) E w
  = datasource.payments_from_csv (pre ++ [bad]) E w.
Proof.
  unfold datasource.payments_from_csv. apply map_m_stops.
  intros w1. now rewrite payment_of_row_is_ok.
Qed.

Lemma ingestion_stops_at_rejected_row_witness :
  datasource.payments_from_csv
    ([csv_row "2.50" "DAI" "pay to 0xAbCdEf0123456789aBcDeF0123456789aBCDeF01"]
     ++ csv_row "abc" "DAI" "0x00000000000000000000000000000000000000b2"
        :: [csv_row "1" "USDC" "nobody"])
    silent fresh_world
  = datasource.payments_from_csv
      ([csv_row "2.50" "DAI" "pay to 0xAbCdEf0123456789aBcDeF0123456789aBCDeF01"]
       ++ [csv_row "abc" "DAI" "0x00000000000000000000000000000000000000b2"])
      silent fresh_world.
Proof.
  apply ingestion_stops_at_rejected_row. vm_compute. reflexivity.
Defined.



(* ===================================================================== *)
(** * Memoised attributes and the payee lookup *)
(* ===================================================================== *)

Section Lookup.

Lemma py_eq_str_spec (v : json) (s : string) :
  py_eq_str v s = true <-> v = JStr s.
Proof.
  destruct v; cbn; split; try discriminate; intros H.
  - apply String.eqb_eq in H. now subst.
  - inversion H. apply String.eqb_refl.
Qed.

(** The loop of [get_payee] over payees that all carry a [riseId]. *)
Lemma find_payee_run (E : env) (w : world) (s : string) (ps rs : list json) :
  Forall2 (fun p r => py_getitem p "riseId" = Ok r) ps rs ->
  if py_in s rs then
    exists pre payee post,
      ps = (pre ++ payee :: post)%list
      /\ py_getitem payee "riseId" = Ok (JStr s)
      /\ Forall (fun q => py_getitem q "riseId" <> Ok (JStr s)) pre
      /\ RiseAPI.find_payee s ps E w = (Ok payee, w)
  else
    RiseAPI.find_payee s ps E w
    = (Raise (ValueError ("Payee with rise id " ++ s ++ " not found")), w).
Proof.
  induction 1 as [|p r ps rs Hp _ IH]; [reflexivity|].
  assert (Hstep : RiseAPI.find_payee s (p :: ps) E w
                  = if py_eq_str r s then (Ok p, w)
                    else RiseAPI.find_payee s ps E w).
  { cbn [RiseAPI.find_payee]. unfold bind, lift. rewrite Hp.
    now destruct (py_eq_str r s). }
  rewrite Hstep.
  change (py_in s (r :: rs)) with (py_eq_str r s || py_in s rs).
  destruct (py_eq_str r s) eqn:Hr; cbn [orb].
  - apply py_eq_str_spec in Hr. subst r.
    exists [], p, ps. repeat split; auto.
  - destruct (py_in s rs).
    + destruct IH as (pre & payee & post & -> & Hid & Hpre & Hrun).
      exists (p :: pre), payee, post. repeat split; auto.
      constructor; [|exact Hpre].
      rewrite Hp. intros H. inversion H; subst.
      cbn in Hr. now rewrite String.eqb_refl in Hr.
    + exact IH.
Qed.

End Lookup.

(** X12. [get_payee] is memoised per recipient: after a successful lookup
    the same lookup returns the same payee and changes nothing, so it
    sends no request and leaves no event. *)
Theorem get_payee_memoised (E : env) (w w' : world) (s : string) (payee : json)
  (Hrun : RiseAPI.get_payee s E w = (Ok payee, w')) :
  RiseAPI.get_payee s E w' = (Ok payee, w').
Proof.
  unfold RiseAPI.get_payee, bind, get_world in *.
  destruct (RiseAPI.cached s (get_payee_cache w)) as [hit|] eqn:Hc.
  - unfold ret in Hrun. inversion Hrun; subst. now rewrite Hc.
  - destruct (RiseAPI.payees E w) as [[ps|c|e] w1]; try discriminate.
    destruct (RiseAPI.find_payee s ps E w1) as [[found|c|e] w2];
      try discriminate.
    unfold RiseAPI.remember_payee, ret in Hrun. inversion Hrun; subst.
    cbn [get_payee_cache RiseAPI.cached]. now rewrite String.eqb_refl.
Qed.

Lemma get_payee_memoised_witness :
  RiseAPI.get_payee "0x00000000000000000000000000000000000000b2" fixture
    (snd (RiseAPI.get_payee "0x00000000000000000000000000000000000000b2"
            fixture signed_in))
  = (Ok bob,
     snd (RiseAPI.get_payee "0x00000000000000000000000000000000000000b2"
            fixture signed_in)).
Proof.
  apply (get_payee_memoised fixture signed_in).
  vm_compute. reflexivity.
Defined.

(** X13. The directory is fetched once: after [allowed_recipients] has
    returned a list, every further evaluation returns that list and
    changes nothing, so no team or member list is requested again. *)
Theorem allowed_recipients_fetched_once (E : env) (w w' : world)
  (l : list json)
  (Hrun : RiseAPI.allowed_recipients E w = (Ok l, w')) :
  RiseAPI.allowed_recipients E w' = (Ok l, w').
Proof.
  apply allowed_recipients_cached.
  now apply (allowed_recipients_memoises E w).
Qed.

Lemma allowed_recipients_fetched_once_witness :
  RiseAPI.allowed_recipients fixture
    (snd (RiseAPI.allowed_recipients fixture signed_in))
  = (Ok [JStr "0x00000000000000000000000000000000000000a1";
         JStr "0x00000000000000000000000000000000000000b2";
         JStr "0x00000000000000000000000000000000000000b2"],
     snd (RiseAPI.allowed_recipients fixture signed_in)).
Proof.
  apply (allowed_recipients_fetched_once fixture signed_in).
  vm_compute. reflexivity.
Defined.

(** X14. The signer's account is asked for once: after [account] has
    returned an address, every further evaluation returns that address
    without a call to the agent. *)
Theorem account_asked_once (E : env) (w w' : world) (a : string)
  (Hrun : FrameSigner.account E w = (Ok a, w')) :
  FrameSigner.account E w' = (Ok a, w').
Proof.
  apply account_cached.
  unfold FrameSigner.account, FrameSigner.w3_eth_accounts, bind, get_world,
    observe, tell, ret in Hrun.
  destruct (account_cache w) as [a0|] eqn:Hc.
  - inversion Hrun; subst. exact Hc.
  - destruct (eth_accounts E (trace w)) as [|x xs]; [discriminate|].
    cbn [trace emit] in Hrun.
    destruct (eth_accounts E _) as [|y ys]; [discriminate|].
    unfold FrameSigner.set_account_cache in Hrun.
    inversion Hrun; subst. reflexivity.
Qed.

Lemma account_asked_once_witness :
  FrameSigner.account fixture (snd (FrameSigner.account fixture fresh_world))
  = (Ok "0xWallet", snd (FrameSigner.account fixture fresh_world)).
Proof.
  apply (account_asked_once fixture fresh_world).
  vm_compute. reflexivity.
Defined.

(** X15. With the payees memoised and no lookup remembered for the
    recipient, a recipient that passes the membership test on the payees'
    [riseId] values is always found: [get_payee] returns the first payee
    whose [riseId] is the recipient, and remembers it. *)
Theorem get_payee_finds_member (E : env) (w : world) (s : string)
  (ps allowed : list json)
  (Hps : payees_cache w = Some ps)
  (Hids : Forall2 (fun p r => py_getitem p "riseId" = Ok r) ps allowed)
  (Hnew : RiseAPI.cached s (get_payee_cache w) = None)
  (Hin : py_in s allowed = true) :
  exists pre payee post,
    ps = (pre ++ payee :: post)%list
    /\ py_getitem payee "riseId" = Ok (JStr s)
    /\ Forall (fun q => py_getitem q "riseId" <> Ok (JStr s)) pre
    /\ RiseAPI.get_payee s E w
       = (Ok payee, snd (RiseAPI.remember_payee s payee E w)).
Proof.
  pose proof (find_payee_run E w s ps allowed Hids) as Hfind.
  rewrite Hin in Hfind.
  destruct Hfind as (pre & payee & post & Heq & Hid & Hpre & Hrun).
  exists pre, payee, post. repeat split; auto.
  unfold RiseAPI.get_payee, RiseAPI.payees, bind, get_world, ret.
  rewrite Hnew, Hps. cbv beta iota. now rewrite Hrun.
Qed.

Lemma get_payee_finds_member_witness :
  exists pre payee post,
    [alice; bob; bob] = (pre ++ payee :: post)%list
    /\ py_getitem payee "riseId"
       = Ok (JStr "0x00000000000000000000000000000000000000b2")
    /\ Forall (fun q => py_getitem q "riseId"
                        <> Ok (JStr "0x00000000000000000000000000000000000000b2"))
         pre
    /\ RiseAPI.get_payee "0x00000000000000000000000000000000000000b2" fixture
         (snd (RiseAPI.allowed_recipients fixture signed_in))
       = (Ok payee,
          snd (RiseAPI.remember_payee
                 "0x00000000000000000000000000000000000000b2" payee fixture
                 (snd (RiseAPI.allowed_recipients fixture signed_in)))).
Proof.
  apply (get_payee_finds_member fixture
           (snd (RiseAPI.allowed_recipients fixture signed_in))
           "0x00000000000000000000000000000000000000b2"
           [alice; bob; bob]
           [JStr "0x00000000000000000000000000000000000000a1";
            JStr "0x00000000000000000000000000000000000000b2";
            JStr "0x00000000000000000000000000000000000000b2"]).
  - vm_compute. reflexivity.
  - repeat constructor.
  - vm_compute. reflexivity.
  - vm_compute. reflexivity.
Defined.

(** X16. With the payees memoised, a recipient that is the [riseId] of no
    payee is not found: [get_payee] raises the not-found [ValueError],
    remembers nothing and changes nothing. *)
Theorem get_payee_rejects_stranger (E : env) (w : world) (s : string)
  (ps allowed : list json)
  (Hps : payees_cache w = Some ps)
  (Hids : Forall2 (fun p r => py_getitem p "riseId" = Ok r) ps allowed)
  (Hnew : RiseAPI.cached s (get_payee_cache w) = None)
  (Hout : py_in s allowed = false) :
  RiseAPI.get_payee s E w
  = (Raise (ValueError ("Payee with rise id " ++ s ++ " not found")), w).
Proof.
  pose proof (find_payee_run E w s ps allowed Hids) as Hfind.
  rewrite Hout in Hfind.
  unfold RiseAPI.get_payee, RiseAPI.payees, bind, get_world, ret.
  rewrite Hnew, Hps. cbv beta iota. now rewrite Hfind.
Qed.

Lemma get_payee_rejects_stranger_witness :
  RiseAPI.get_payee "0x00000000000000000000000000000000000000ff" fixture
    (snd (RiseAPI.allowed_recipients fixture signed_in))
  = (Raise (ValueError ("Payee with rise id "
                        ++ "0x00000000000000000000000000000000000000ff"
                        ++ " not found")),
     snd (RiseAPI.allowed_recipients fixture signed_in)).
Proof.
  apply (get_payee_rejects_stranger fixture
           (snd (RiseAPI.allowed_recipients fixture signed_in))
           "0x00000000000000000000000000000000000000ff"
           [alice; bob; bob]
           [JStr "0x00000000000000000000000000000000000000a1";
            JStr "0x00000000000000000000000000000000000000b2";
            JStr "0x00000000000000000000000000000000000000b2"]).
  - vm_compute. reflexivity.
  - repeat constructor.
  - vm_compute. reflexivity.
  - vm_compute. reflexivity.
Defined.

(* ===================================================================== *)
(** * Which events an operation can add *)
(* ===================================================================== *)

Section Grows.
Variable P : event -> Prop.

Lemma grows_refl (w : world) : grows P w w.
Proof. exists []. split; [now rewrite app_nil_r|constructor]. Qed.

Lemma grows_trans (w1 w2 w3 : world) :
  grows P w1 w2 -> grows P w2 w3 -> grows P w1 w3.
Proof.
  intros (e1 & H1 & F1) (e2 & H2 & F2). exists (e1 ++ e2)%list. split.
  - now rewrite H2, H1, app_assoc.
  - now apply Forall_app.
Qed.

Lemma grows_emit (w : world) (ev : event) : P ev -> grows P w (emit ev w).
Proof. intros H. exists [ev]. split; [reflexivity|]. now repeat constructor. Qed.

Lemma grows_same_trace (w w' : world) : trace w' = trace w -> grows P w w'.
Proof. intros H. exists []. split; [now rewrite app_nil_r|constructor]. Qed.

Ltac gstep :=
  lazymatch goal with
  | |- steps _ (bind _ _) =>
      apply (steps_bind (grows P) grows_trans); [|intros ?]
  | |- steps _ (ret _) => apply (steps_ret (grows P) grows_refl)
  | |- steps _ (lift _) => apply (steps_lift (grows P) grows_refl)
  | |- steps _ (raise _) => apply (steps_raise (grows P) grows_refl)
  | |- steps _ (sys_exit _) => apply (steps_exit (grows P) grows_refl)
  | |- steps _ (observe _) => apply (steps_observe (grows P) grows_refl)
  | |- steps _ get_world => apply (steps_get_world (grows P) grows_refl)
  | |- steps _ (tell _) => apply (steps_tell (grows P) P grows_emit)
  | |- steps _ (map_m _ _) =>
      apply (steps_map_m (grows P) grows_refl grows_trans); intros ?
  | |- steps _ (if ?b then _ else _) => destruct b
  | |- steps _ (match ?x with _ => _ end) => destruct x
  end.

Hypothesis HLog : forall l, P (Log l).
Hypothesis HPrint : forall p, P (Print p).
Hypothesis HTotal : forall x, P (LogTotal x).
Hypothesis HAccounts : forall a, P (RpcAccounts a).
Hypothesis HSign : forall a m r, P (RpcSign a m r).
Hypothesis HSignTyped : forall a m r, P (RpcSignTyped a m r).
Hypothesis HRand : forall r, P (RandBits r).
Hypothesis HTeams : forall m a p q r, P (Http m TEAM_ENDPOINT a p q r).
Hypothesis HTalent : forall m id a p q r, P (Http m (TEAM_TALENT id) a p q r).
Hypothesis HSignIn : forall m p q r, P (Http m AUTH_ENDPOINT None p q r).
Hypothesis HBatch : forall m a p q r, P (Http m BATCH_PAY a p q r).

Lemma grows_log_error (t : string) : steps (grows P) (log.error t).
Proof. unfold log.error. gstep. apply HLog. Qed.

Lemma grows_log_info (t : string) : steps (grows P) (log.info t).
Proof. unfold log.info. gstep. apply HLog. Qed.

Lemma grows_log_warn (t : string) : steps (grows P) (log.warn t).
Proof. unfold log.warn. gstep. apply HLog. Qed.

Lemma grows_log_okay (t : string) : steps (grows P) (log.okay t).
Proof. unfold log.okay. gstep. apply HLog. Qed.

Lemma grows_console_print (p : printable) : steps (grows P) (log.console_print p).
Proof. unfold log.console_print. gstep. apply HPrint. Qed.

Lemma grows_account : steps (grows P) FrameSigner.account.
Proof.
  assert (Hacc : steps (grows P) FrameSigner.w3_eth_accounts).
  { unfold FrameSigner.w3_eth_accounts.
    gstep; [gstep|]. gstep; [gstep; apply HAccounts|gstep]. }
  unfold FrameSigner.account.
  gstep; [gstep|]. gstep; [gstep|].
  gstep; [exact Hacc|]. gstep.
  - gstep; [apply grows_log_error|gstep].
  - gstep; [exact Hacc|]. gstep; [gstep|].
    gstep; [|gstep]. intros E w. now apply grows_same_trace.
Qed.

Lemma grows_sign (msg : string) : steps (grows P) (FrameSigner.sign msg).
Proof.
  unfold FrameSigner.sign.
  gstep; [apply grows_account|]. gstep; [gstep|].
  gstep; [gstep; apply HSign|].
  gstep; [|gstep]. gstep; [apply grows_log_error|gstep].
Qed.

Lemma grows_sign_typed (msg : json) : steps (grows P) (FrameSigner.sign_typed msg).
Proof.
  unfold FrameSigner.sign_typed.
  gstep; [apply grows_account|]. gstep; [gstep|].
  gstep; [gstep; apply HSignTyped|].
  gstep; [|gstep]. gstep; [apply grows_log_error|gstep].
Qed.

(** A request grows the trace by its one exchange. *)
Lemma grows_request (m : method) (ep : endpoint) (auth : bool)
  (params payload : option json) :
  (forall w r, P (Http m ep (authorization_of auth w) params payload r)) ->
  steps (grows P) (RiseAPI._request m ep auth params payload).
Proof.
  intros HP E w.
  assert (Hw : snd (RiseAPI._request m ep auth params payload E w)
               = emit (Http m ep (authorization_of auth w) params payload
                         (http E (trace w) m ep (authorization_of auth w)
                            params payload)) w).
  { rewrite request_cases. cbv zeta.
    destruct (http E (trace w) m ep _ params payload) as [resp|];
      [|reflexivity].
    destruct ((400 <=? status_code resp) && (status_code resp <? 600)).
    - destruct (body resp) as [j|]; [|reflexivity].
      destruct (py_getitem j "message") as [x|c|[]]; reflexivity.
    - destruct (body resp) as [j|]; [|reflexivity].
      destruct (py_getitem j "data") as [x|c|[]]; reflexivity. }
  rewrite Hw. apply grows_emit, HP.
Qed.

Lemma grows_auth : steps (grows P) RiseAPI._auth.
Proof.
  unfold RiseAPI._auth.
  gstep.
  { unfold RiseAPI._get_sign_message.
    gstep; [apply grows_account|].
    gstep; [|gstep]. apply grows_request. intros. apply HSignIn. }
  gstep; [apply grows_log_info|].
  gstep; try (gstep; fail).
  gstep; [apply grows_sign|].
  gstep.
  { unfold RiseAPI._get_token.
    gstep; [apply grows_account|].
    gstep; [|gstep]. apply grows_request. intros. apply HSignIn. }
  gstep; try (gstep; fail).
  intros E w. now apply grows_same_trace.
Qed.

Lemma grows_payees : steps (grows P) RiseAPI.payees.
Proof.
  assert (Hcollect : forall teams acc,
             steps (grows P) (RiseAPI.collect_payees teams acc)).
  { induction teams as [|team rest IH]; intros acc;
      cbn [RiseAPI.collect_payees]; [gstep|].
    gstep; [gstep|].
    gstep; [apply grows_request; intros; apply HTalent|].
    gstep; [gstep|apply IH]. }
  unfold RiseAPI.payees.
  gstep; [gstep|]. gstep; [gstep|].
  gstep; [apply grows_request; intros; apply HTeams|].
  gstep; [gstep|]. gstep; [apply Hcollect|].
  gstep; [|gstep]. intros E w. now apply grows_same_trace.
Qed.

Lemma grows_allowed_recipients : steps (grows P) RiseAPI.allowed_recipients.
Proof.
  unfold RiseAPI.allowed_recipients.
  gstep; [gstep|]. gstep; [gstep|].
  gstep; [apply grows_payees|].
  gstep; [gstep; gstep|].
  gstep; [|gstep]. intros E w. now apply grows_same_trace.
Qed.

Lemma grows_get_payee (rise_id : string) :
  steps (grows P) (RiseAPI.get_payee rise_id).
Proof.
  assert (Hfind : forall ps, steps (grows P) (RiseAPI.find_payee rise_id ps)).
  { induction ps as [|payee rest IH]; cbn [RiseAPI.find_payee]; [gstep|].
    gstep; [gstep|]. gstep; [gstep|apply IH]. }
  unfold RiseAPI.get_payee.
  gstep; [gstep|]. gstep; [gstep|].
  gstep; [apply grows_payees|]. gstep; [apply Hfind|].
  gstep; [|gstep]. intros E w. now apply grows_same_trace.
Qed.

Lemma grows_batch_payment (rise_id : string) (payments : list Payment) :
  steps (grows P) (RiseAPI.batch_payment rise_id payments).
Proof.
  unfold RiseAPI.batch_payment.
  gstep.
  { unfold RiseAPI._get_batch_payment_message.
    gstep; [apply grows_account|].
    apply grows_request. intros. apply HBatch. }
  gstep; [apply grows_log_info|].
  gstep; [apply grows_sign_typed|].
  gstep; [gstep|].
  unfold RiseAPI._send_batch_payment.
  gstep; [apply grows_account|].
  gstep; [|gstep]. apply grows_request. intros. apply HBatch.
Qed.

Lemma grows_payments_from_csv (rows : list (gmap string pyval)) :
  steps (grows P) (datasource.payments_from_csv rows).
Proof.
  unfold datasource.payments_from_csv. gstep.
  unfold datasource.payment_of_row.
  gstep.
  { unfold datasource._sanity_checks, datasource.getitem.
    gstep; [gstep; gstep|]. gstep; [|gstep].
    gstep; [gstep; gstep|]. gstep; [apply grows_log_error|gstep]. }
  gstep; [unfold datasource.getitem; gstep; gstep|].
  gstep.
  { unfold datasource.payment_amount. gstep; [gstep|].
    gstep; [gstep|]. gstep; [apply grows_log_error|gstep]. }
  gstep; [unfold datasource.getitem; gstep; gstep|].
  gstep.
  { unfold datasource.find_rise_id. gstep; [gstep|].
    gstep; [gstep; [apply grows_log_error|gstep]|].
    gstep; [gstep|]. gstep; [apply grows_log_error|gstep]. }
  unfold new_Payment, post_init, getrandbits.
  gstep; [|gstep].
  gstep; [gstep|]. gstep; [gstep; apply HRand|gstep].
Qed.

End Grows.

(* ===================================================================== *)
(** * The operator's confirmations *)
(* ===================================================================== *)

Section Confirmations.

Lemma unattended_calm (ev : event) :
  unattended ev -> is_batch_call ev = false /\ confirmed ev.
Proof.
  destruct ev; cbn; auto; try contradiction.
  destruct ep; cbn; auto; contradiction.
Qed.

Lemma guarded_of_grows {A} (m : M A) :
  steps (grows unattended) m -> guarded m.
Proof.
  intros H E w. destruct (H E w) as (evs & Ht & F).
  exists evs. split; [exact Ht|]. split; [|left].
  - eapply Forall_impl; [exact F|]. intros ev Hev. now apply unattended_calm.
  - eapply Forall_impl; [exact F|]. intros ev Hev. now apply unattended_calm.
Qed.

Lemma guarded_bind {A B} (m : M A) (k : A -> M B) :
  guarded m -> (forall a, guarded (k a)) -> guarded (bind m k).
Proof.
  intros Hm Hk E w. unfold bind.
  destruct (Hm E w) as (e1 & Ht1 & Fb1 & Hc1).
  destruct (m E w) as [[a|c|e] w1]; cbn [fst snd] in *.
  - destruct Hc1 as [Fc1|]; [|discriminate].
    destruct (Hk a E w1) as (e2 & Ht2 & Fb2 & Hc2).
    exists (e1 ++ e2)%list. split; [now rewrite Ht2, Ht1, app_assoc|].
    split; [now apply Forall_app|].
    destruct Hc2 as [Fc2|Hx]; [left; now apply Forall_app | now right].
  - exists e1. split; [exact Ht1|]. split; [exact Fb1|].
    destruct Hc1 as [Fc1|Hx]; [now left | right; now inversion Hx].
  - exists e1. split; [exact Ht1|]. split; [exact Fb1|].
    destruct Hc1 as [Fc1|Hx]; [now left | discriminate].
Qed.

(** A question, and the end of the run when the answer is no. *)
Lemma guarded_confirm {A} (q : string) (k : M A) :
  guarded k ->
  guarded (yes <- log.prompt_yes_no q ;;
           if negb yes then
             log.error "Payment cancelled by user" ;;;
             sys_exit 1
           else k).
Proof.
  intros Hk E w.
  unfold log.prompt_yes_no, log.error, bind, observe, tell, ret, sys_exit.
  cbn [fst snd]. destruct (ask E (trace w) q); cbn [negb].
  - destruct (Hk E (emit (Prompt q true) w)) as (evs & Ht & Fb & Hc).
    exists (Prompt q true :: evs). cbn [trace emit] in Ht.
    split; [now rewrite Ht, <- app_assoc|].
    split; [constructor; [reflexivity|exact Fb]|].
    destruct Hc as [Fc|Hx]; [left; constructor; [exact I|exact Fc] | now right].
  - eexists [Prompt q false; Log _]. cbn [trace emit snd fst].
    split; [now rewrite <- app_assoc|].
    split; [repeat constructor | now right].
Qed.

Lemma guarded_confirm_each (payments : list Payment) :
  forall i tree, guarded (main.confirm_each i payments tree).
Proof.
  induction payments as [|p rest IH]; intros i tree; cbn [main.confirm_each].
  - apply guarded_of_grows, steps_ret, grows_refl.
  - apply guarded_bind.
    { apply guarded_of_grows, grows_allowed_recipients; intros; exact I. }
    intros allowed. destruct (negb (py_in (recipient p) allowed)).
    { apply guarded_of_grows, steps_raise, grows_refl. }
    apply guarded_bind.
    { apply guarded_of_grows, grows_get_payee; intros; exact I. }
    intros payee.
    apply guarded_bind; [apply guarded_of_grows, steps_lift, grows_refl|].
    intros first.
    apply guarded_bind; [apply guarded_of_grows, steps_lift, grows_refl|].
    intros last.
    apply guarded_bind; [apply guarded_of_grows, steps_lift, grows_refl|].
    intros usd.
    apply guarded_bind.
    { apply guarded_of_grows, grows_console_print. intros; exact I. }
    intros _.
    apply (guarded_confirm "Confirm payment?").
    apply guarded_bind; [apply guarded_of_grows, steps_lift, grows_refl|].
    intros usd'. apply IH.
Qed.

Lemma settled_of_grows {A} (m : M A) :
  steps (grows unprompted) m -> settled m.
Proof.
  intros H E w. destruct (H E w) as (evs & Ht & F).
  exists evs. split; [exact Ht|]. left.
  eapply Forall_impl; [exact F|]. intros [] Hev; try exact I. contradiction.
Qed.

Lemma settled_bind {A B} (m : M A) (k : A -> M B) :
  guarded m -> (forall a, settled (k a)) -> settled (bind m k).
Proof.
  intros Hm Hk E w. unfold bind.
  destruct (Hm E w) as (e1 & Ht1 & Fb1 & Hc1).
  destruct (m E w) as [[a|c|e] w1]; cbn [fst snd] in *.
  - destruct Hc1 as [Fc1|]; [|discriminate].
    destruct (Hk a E w1) as (e2 & Ht2 & Hc2).
    exists (e1 ++ e2)%list. split; [now rewrite Ht2, Ht1, app_assoc|].
    destruct Hc2 as [Fc2|[Hx Fb2]].
    + left. now apply Forall_app.
    + right. split; [exact Hx | now apply Forall_app].
  - exists e1. split; [exact Ht1|].
    destruct Hc1 as [Fc1|Hx]; [now left|].
    right. split; [now inversion Hx | exact Fb1].
  - exists e1. split; [exact Ht1|].
    destruct Hc1 as [Fc1|Hx]; [now left | discriminate].
Qed.

Lemma settled_confirm {A} (q : string) (k : M A) :
  settled k ->
  settled (yes <- log.prompt_yes_no q ;;
           if negb yes then
             log.error "Payment cancelled by user" ;;;
             sys_exit 1
           else k).
Proof.
  intros Hk E w.
  unfold log.prompt_yes_no, log.error, bind, observe, tell, ret, sys_exit.
  cbn [fst snd]. destruct (ask E (trace w) q); cbn [negb].
  - destruct (Hk E (emit (Prompt q true) w)) as (evs & Ht & Hc).
    exists (Prompt q true :: evs). cbn [trace emit] in Ht.
    split; [now rewrite Ht, <- app_assoc|].
    destruct Hc as [Fc|[Hx Fb]].
    + left. constructor; [exact I|exact Fc].
    + right. split; [exact Hx|]. constructor; [reflexivity|exact Fb].
  - eexists [Prompt q false; Log _]. cbn [trace emit snd fst].
    split; [now rewrite <- app_assoc|].
    right. split; [reflexivity | repeat constructor].
Qed.

Lemma settled_confirm_and_pay (entity : string) (payments : list Payment) :
  settled (main.confirm_and_pay entity payments).
Proof.
  unfold main.confirm_and_pay.
  apply settled_bind; [apply guarded_confirm_each|]. intros tree.
  apply settled_bind.
  { apply guarded_of_grows, grows_log_warn. intros; exact I. }
  intros _.
  apply settled_bind.
  { apply guarded_of_grows, grows_console_print. intros; exact I. }
  intros _.
  apply settled_bind; [apply guarded_of_grows, steps_lift, grows_refl|].
  intros total.
  apply settled_bind.
  { apply guarded_of_grows, (steps_tell _ unattended (grows_emit unattended)).
    exact I. }
  intros _.
  apply (settled_confirm "Confirm payment?").
  apply settled_of_grows.
  apply (steps_bind _ (grows_trans unprompted)).
  { apply grows_batch_payment; intros; exact I. }
  intros _.
  apply (steps_bind _ (grows_trans unprompted)).
  { apply grows_log_info. intros; exact I. }
  intros _. apply grows_log_okay. intros; exact I.
Qed.

End Confirmations.

(** X17. An operator's no is final. Whenever a question of the
    confirmation loop or the closing question is answered with no, the
    run exits with code 1 and has exchanged nothing with the batch-pay
    endpoint; and a run that completes has seen every question answered
    with yes. *)
Theorem declined_prompt_aborts (E : env) (w : world) (entity : string)
  (payments : list Payment) :
  exists evs,
    trace (snd (main.confirm_and_pay entity payments E w))
    = (trace w ++ evs)%list
    /\ (forall q, In (Prompt q false) evs ->
          fst (main.confirm_and_pay entity payments E w) = Exit 1
          /\ Forall (fun ev => is_batch_call ev = false) evs)
    /\ (is_ok (fst (main.confirm_and_pay entity payments E w)) = true ->
        forall q a, In (Prompt q a) evs -> a = true).
Proof.
  destruct (settled_confirm_and_pay entity payments E w) as (evs & Ht & Hc).
  exists evs. split; [exact Ht|]. split.
  - intros q Hin. destruct Hc as [Fc|Hx]; [|exact Hx].
    rewrite List.Forall_forall in Fc. destruct (Fc _ Hin).
  - intros Hok q a Hin. destruct Hc as [Fc|[Hx _]].
    + rewrite List.Forall_forall in Fc. specialize (Fc _ Hin).
      destruct a; [reflexivity|contradiction].
    + rewrite Hx in Hok. discriminate.
Qed.

Lemma declined_prompt_aborts_witness :
  fst (main.confirm_and_pay "0xEntity" [] refusing signed_in) = Exit 1.
Proof.
  destruct (declined_prompt_aborts refusing signed_in "0xEntity" [])
    as (evs & Htrace & Hno & _).
  apply (Hno "Confirm payment?").
  vm_compute in Htrace. subst evs. cbn [In]. tauto.
Defined.

(* ===================================================================== *)
(** * Signing in, and a file that is turned down *)
(* ===================================================================== *)

Section SignIn.

Lemma steps_bind_fails (R : world -> world -> Prop) {A B} (m : M A)
  (k : A -> M B) :
  steps R m -> (forall E w, is_ok (fst (m E w)) = false) ->
  steps R (bind m k).
Proof.
  intros Hm Hfail E w. unfold bind. specialize (Hm E w).
  specialize (Hfail E w).
  destruct (m E w) as [[a|c|e] w1]; cbn [fst snd is_ok] in *;
    [discriminate|exact Hm..].
Qed.

Lemma bind_never_ok {A B} (m : M A) (k : A -> M B) (E : env) (w : world) :
  (forall a w1, is_ok (fst (k a E w1)) = false) ->
  is_ok (fst (bind m k E w)) = false.
Proof.
  intros Hk. unfold bind. destruct (m E w) as [[a|c|e] w1]; cbn; auto.
Qed.

Lemma request_run_any (E : env) (w : world) (m : method) (ep : endpoint)
  (auth : bool) (params payload : option json) (resp : Response) (data : json) :
  http E (trace w) m ep (authorization_of auth w) params payload = Some resp ->
  reply_data resp = Some data ->
  RiseAPI._request m ep auth params payload E w
  = (Ok data,
     emit (Http m ep (authorization_of auth w) params payload (Some resp)) w).
Proof.
  intros Hhttp Hdata. rewrite request_cases. cbv zeta. rewrite Hhttp.
  unfold reply_data in Hdata.
  destruct ((400 <=? status_code resp) && (status_code resp <? 600));
    [discriminate|].
  destruct (body resp) as [j|]; [|discriminate].
  destruct (py_getitem j "data") as [d| |]; try discriminate.
  now inversion Hdata.
Qed.

(** The first evaluation of [account] with an agent that lists accounts. *)
Lemma account_first (E : env) (w : world) (a : string) (others : list string) :
  account_cache w = None ->
  (forall t, eth_accounts E t = a :: others) ->
  FrameSigner.account E w
  = (Ok a,
     {| trace := (trace w ++ [RpcAccounts (a :: others);
                              RpcAccounts (a :: others)])%list;
        token := token w;
        account_cache := Some a;
        payees_cache := payees_cache w;
        allowed_recipients_cache := allowed_recipients_cache w;
        get_payee_cache := get_payee_cache w |}).
Proof.
  intros Hc Ha.
  unfold FrameSigner.account, FrameSigner.w3_eth_accounts,
    FrameSigner.set_account_cache, bind, get_world, observe, tell, ret.
  rewrite Hc, !Ha. cbn [trace emit token account_cache payees_cache
                          allowed_recipients_cache get_payee_cache].
  now rewrite <- app_assoc.
Qed.

Lemma sign_run (E : env) (w : world) (wallet sig msg : string) :
  account_cache w = Some wallet ->
  eth_sign E (trace w) wallet msg = RpcResult sig ->
  FrameSigner.sign msg E w
  = (Ok sig, emit (RpcSign wallet msg (RpcResult sig)) w).
Proof.
  intros Hacc Hsig. unfold FrameSigner.sign. unfold bind at 1.
  rewrite (account_cached E w wallet Hacc).
  unfold bind, observe, tell, ret. now rewrite Hsig.
Qed.

End SignIn.

(** X18. Signing in, when every step is answered: [_auth] asks the agent
    for its accounts, fetches the challenge for the first account without
    a bearer token, has the agent sign the challenge text, exchanges
    wallet, challenge and signature for a token without a bearer token,
    and stores that token; these six events are all it leaves. *)
Theorem auth_stores_token (E : env) (w : world)
  (wallet msg sig tok : string) (others : list string)
  (challenge granted : Response) (d1 d2 : json)
  (Hnew : account_cache w = None)
  (Haccounts : forall t, eth_accounts E t = wallet :: others)
  (Hget : forall t,
      http E t GET AUTH_ENDPOINT None (Some (JObj [("wallet", JStr wallet)]))
        None = Some challenge)
  (Hd1 : reply_data challenge = Some d1)
  (Hmsg : py_getitem d1 "message" = Ok (JStr msg))
  (Hsign : forall t, eth_sign E t wallet msg = RpcResult sig)
  (Hpost : forall t,
      http E t POST AUTH_ENDPOINT None None
        (Some (JObj [("wallet", JStr wallet); ("message", JStr msg);
                     ("signature", JStr sig)])) = Some granted)
  (Hd2 : reply_data granted = Some d2)
  (Htok : py_getitem d2 "token" = Ok (JStr tok)) :
  RiseAPI._auth E w
  = (Ok tt,
     {| trace :=
          (trace w
           ++ [RpcAccounts (wallet :: others);
               RpcAccounts (wallet :: others);
               Http GET AUTH_ENDPOINT None
                 (Some (JObj [("wallet", JStr wallet)])) None (Some challenge);
               Log "[info][info][/info] Sign message to sign in";
               RpcSign wallet msg (RpcResult sig);
               Http POST AUTH_ENDPOINT None None
                 (Some (JObj [("wallet", JStr wallet); ("message", JStr msg);
                              ("signature", JStr sig)])) (Some granted)])%list;
        token := tok;
        account_cache := Some wallet;
        payees_cache := payees_cache w;
        allowed_recipients_cache := allowed_recipients_cache w;
        get_payee_cache := get_payee_cache w |}).
Proof.
  unfold RiseAPI._auth. unfold bind at 1.
  unfold RiseAPI._get_sign_message. unfold bind at 1.
  rewrite (account_first E w wallet others Hnew Haccounts).
  set (w1 := {| trace := _ |}).
  unfold bind at 1.
  rewrite (request_run_any E w1 GET AUTH_ENDPOINT false _ None challenge d1
             (Hget _) Hd1).
  set (w2 := emit _ w1).
  unfold lift at 1. rewrite Hmsg.
  unfold bind at 1. unfold log.info, tell at 1.
  set (w3 := emit _ w2).
  unfold bind at 1.
  rewrite (sign_run E w3 wallet sig msg eq_refl (Hsign _)).
  set (w4 := emit _ w3).
  unfold bind at 1. unfold RiseAPI._get_token. unfold bind at 1.
  rewrite (account_cached E w4 wallet eq_refl).
  unfold bind at 1.
  rewrite (request_run_any E w4 POST AUTH_ENDPOINT false None _ granted d2
             (Hpost _) Hd2).
  unfold lift. rewrite Htok. unfold RiseAPI.set_token.
  subst w4 w3 w2 w1.
  cbn [trace emit token account_cache payees_cache allowed_recipients_cache
         get_payee_cache authorization_of].
  now rewrite <- !app_assoc.
Qed.

Lemma auth_stores_token_witness :
  RiseAPI._auth welcoming fresh_world
  = (Ok tt,
     {| trace :=
          (trace fresh_world
           ++ [RpcAccounts ["0xWallet"];
               RpcAccounts ["0xWallet"];
               Http GET AUTH_ENDPOINT None
                 (Some (JObj [("wallet", JStr "0xWallet")])) None
                 (Some {| status_code := 200; text := "";
                          body := Some (JObj [("data",
                                    JObj [("message", JStr "Sign in to Rise")])]) |});
               Log "[info][info][/info] Sign message to sign in";
               RpcSign "0xWallet" "Sign in to Rise" (RpcResult "0xsigned");
               Http POST AUTH_ENDPOINT None None
                 (Some (JObj [("wallet", JStr "0xWallet");
                              ("message", JStr "Sign in to Rise");
                              ("signature", JStr "0xsigned")]))
                 (Some {| status_code := 200; text := "";
                          body := Some (JObj [("data",
                                    JObj [("token", JStr "t0k3n")])]) |})])%list;
        token := "t0k3n";
        account_cache := Some "0xWallet";
        payees_cache := payees_cache fresh_world;
        allowed_recipients_cache := allowed_recipients_cache fresh_world;
        get_payee_cache := get_payee_cache fresh_world |}).
Proof.
  apply (auth_stores_token welcoming fresh_world "0xWallet" "Sign in to Rise"
           "0xsigned" "t0k3n" [] _ _
           (JObj [("message", JStr "Sign in to Rise")])
           (JObj [("token", JStr "t0k3n")]));
    try reflexivity; intros t; reflexivity.
Defined.

(** X19. A payments file with a row that is not accepted is turned down
    right after signing in: the run does not complete, and the only
    requests it has sent are those to the sign-in endpoint, without a
    bearer token; no team, member or batch-pay request is made. *)
Theorem rejected_file_stops_after_sign_in (E : env) (w : world)
  (entity filename : string) (rows : list (gmap string pyval))
  (Hbad : forallb row_accepted rows = false) :
  is_ok (fst (main.run entity filename rows E w)) = false
  /\ exists evs,
      trace (snd (main.run entity filename rows E w)) = (trace w ++ evs)%list
      /\ Forall sign_in_only evs.
Proof.
  assert (Hrows : forall E' w',
             is_ok (fst (datasource.payments_from_csv rows E' w')) = false).
  { intros E' w'. unfold datasource.payments_from_csv.
    rewrite (map_m_is_ok datasource.payment_of_row row_accepted E'
               (fun row w1 => payment_of_row_is_ok E' w1 row)).
    exact Hbad. }
  unfold main.run. split.
  - apply bind_never_ok. intros _ w1.
    apply bind_never_ok. intros _ w2.
    now apply bind_stops.
  - apply (steps_bind (grows sign_in_only) (grows_trans sign_in_only)).
    { apply grows_auth; intros; cbn; auto. }
    intros _.
    apply (steps_bind (grows sign_in_only) (grows_trans sign_in_only)).
    { apply grows_log_info; intros; exact I. }
    intros _.
    apply steps_bind_fails; [|exact Hrows].
    apply grows_payments_from_csv; intros; exact I.
Qed.

Lemma rejected_file_stops_after_sign_in_witness :
  is_ok (fst (main.run "0xEntity" "payments.csv"
                [csv_row "2.50" "DAI" "0x00000000000000000000000000000000000000b2";
                 csv_row "abc" "DAI" "0x00000000000000000000000000000000000000a1"]
                welcoming fresh_world)) = false
  /\ exists evs,
      trace (snd (main.run "0xEntity" "payments.csv"
                    [csv_row "2.50" "DAI" "0x00000000000000000000000000000000000000b2";
                     csv_row "abc" "DAI" "0x00000000000000000000000000000000000000a1"]
                    welcoming fresh_world))
      = (trace fresh_world ++ evs)%list
      /\ Forall sign_in_only evs.
Proof.
  apply rejected_file_stops_after_sign_in. vm_compute. reflexivity.
Defined.

(* ===================================================================== *)
(** * Configuration and start-up *)
(* ===================================================================== *)

(** X20. [read_envs] succeeds exactly when [ENTITY_RISE_ID] is set, and
    the configuration it returns holds that variable and nothing else: no
    other variable of the environment reaches the configuration. Without
    the variable it raises the required-variable error. *)
Theorem read_envs_only_entity (environ : gmap string string) :
  startup.read_envs environ
  = match environ !! "ENTITY_RISE_ID" with
    | Some v => Ok {[ "ENTITY_RISE_ID" := v ]}
    | None =>
        Raise (RuntimeError "Required variable=ENTITY_RISE_ID not found")
    end.
Proof.
  unfold startup.read_envs, startup.annotations. cbn [startup.fill].
  destruct (environ !! "ENTITY_RISE_ID") as [v|] eqn:Hv.
  - assert (H : filter (fun kv : string * string => kv.1 ∈ ["ENTITY_RISE_ID"])
                  environ !! "ENTITY_RISE_ID" = Some v).
    { apply map_lookup_filter_Some. split; [exact Hv|]. cbn. set_solver. }
    rewrite H. now rewrite insert_empty.
  - assert (H : filter (fun kv : string * string => kv.1 ∈ ["ENTITY_RISE_ID"])
                  environ !! "ENTITY_RISE_ID" = None).
    { apply map_lookup_filter_None. now left. }
    now rewrite H.
Qed.

Section Connecting.
Import FrameConn.

Lemma retries_front (k : nat) :
  retries (S k) = (away_line :: Prompt "Retry?" true :: retries k)%list.
Proof.
  induction k as [|k IH]; [reflexivity|].
  change (retries (S (S k)))
    with (retries (S k) ++ [away_line; Prompt "Retry?" true])%list.
  rewrite IH at 1. reflexivity.
Qed.

Lemma with_events_nil (w : world) : with_events w [] = w.
Proof. unfold with_events. rewrite app_nil_r. now destruct w. Qed.

(** While the agent is away and the operator retries, a round is passed. *)
Lemma establish_round (E : env) (up : list event -> bool) (fuel : nat)
  (w : world) :
  up (trace w) = false ->
  ask E (trace w ++ [away_line])%list "Retry?" = true ->
  _establish_conn_to_frame up (S fuel) E w
  = _establish_conn_to_frame up fuel E
      (with_events w [away_line; Prompt "Retry?" true]).
Proof.
  intros Hup Hask. cbn [_establish_conn_to_frame].
  unfold bind at 1. unfold observe at 1. rewrite Hup. cbn [negb].
  unfold bind at 1. unfold log.warn, tell at 1.
  unfold bind at 1. unfold log.prompt_yes_no, bind, observe, tell, ret.
  change (Log ("[warn][warn][/warn] " ++ "Frame connection is not established"))
    with away_line.
  cbn [trace emit]. rewrite Hask.
  unfold with_events, emit. cbn [trace token account_cache payees_cache
    allowed_recipients_cache get_payee_cache].
  now rewrite <- app_assoc.
Qed.

Lemma establish_rounds (E : env) (up : list event -> bool) (k : nat) :
  forall (fuel : nat) (w : world),
    (forall j, (j < k)%nat -> up (trace w ++ retries j)%list = false) ->
    (forall j, (j < k)%nat ->
               ask E (trace w ++ retries j ++ [away_line])%list "Retry?" = true) ->
    _establish_conn_to_frame up (k + fuel) E w
    = _establish_conn_to_frame up fuel E (with_events w (retries k)).
Proof.
  induction k as [|k IH]; intros fuel w Hdown Hretry.
  - now rewrite with_events_nil.
  - cbn [Nat.add]. rewrite establish_round.
    + rewrite IH.
      * f_equal. unfold with_events. cbn [trace token account_cache
          payees_cache allowed_recipients_cache get_payee_cache].
        now rewrite retries_front, <- app_assoc.
      * intros j Hj. cbn [with_events trace].
        rewrite <- app_assoc. cbn [app]. rewrite <- retries_front.
        apply Hdown. lia.
      * intros j Hj. cbn [with_events trace].
        rewrite <- app_assoc. cbn [app].
        change (away_line :: Prompt "Retry?" true :: retries j ++ [away_line])%list
          with ((away_line :: Prompt "Retry?" true :: retries j) ++ [away_line])%list.
        rewrite <- retries_front. apply Hretry. lia.
    + specialize (Hdown 0%nat ltac:(lia)). cbn [retries] in Hdown.
      now rewrite app_nil_r in Hdown.
    + specialize (Hretry 0%nat ltac:(lia)). exact Hretry.
Qed.

End Connecting.

(** X21. [_establish_conn_to_frame] keeps asking: when the agent is away
    for [k] checks, the operator answers every "Retry?" with yes and the
    agent is there at the next check, the connection is returned after
    exactly [k] rounds of warning and question, given room for [k + 1]
    checks. *)
Theorem frame_connects_after_retries (E : env) (up : list event -> bool)
  (k fuel : nat) (w : world)
  (Hdown : forall j, (j < k)%nat -> up (trace w ++ retries j)%list = false)
  (Hretry : forall j, (j < k)%nat ->
              ask E (trace w ++ retries j ++ [away_line])%list "Retry?" = true)
  (Hup : up (trace w ++ retries k)%list = true)
  (Hfuel : (k < fuel)%nat) :
  FrameConn._establish_conn_to_frame up fuel E w
  = (Ok (Some tt), with_events w (retries k)).
Proof.
  replace fuel with (k + S (fuel - S k))%nat by lia.
  rewrite (establish_rounds E up k _ w Hdown Hretry).
  cbn [FrameConn._establish_conn_to_frame].
  unfold bind, observe. cbn [with_events trace]. now rewrite Hup.
Qed.

Lemma frame_connects_after_retries_witness :
  FrameConn._establish_conn_to_frame
    (fun t => (4 <=? length t)%nat) 5 fixture fresh_world
  = (Ok (Some tt), with_events fresh_world (retries 2)).
Proof.
  apply (frame_connects_after_retries fixture
           (fun t => (4 <=? length t)%nat) 2 5 fresh_world).
  - intros [|[|j]] Hj; [reflexivity..|lia].
  - intros [|[|j]] Hj; [reflexivity..|lia].
  - reflexivity.
  - lia.
Defined.

(** X22. The only way [_establish_conn_to_frame] gives up is the
    operator's no: when the agent is still away after [k] retries and the
    operator then answers "Retry?" with no, the script warns that it is
    aborted and exits with code 1. *)
Theorem frame_aborts_on_decline (E : env) (up : list event -> bool)
  (k fuel : nat) (w : world)
  (Hdown : forall j, (j <= k)%nat -> up (trace w ++ retries j)%list = false)
  (Hretry : forall j, (j < k)%nat ->
              ask E (trace w ++ retries j ++ [away_line])%list "Retry?" = true)
  (Hno : ask E (trace w ++ retries k ++ [away_line])%list "Retry?" = false)
  (Hfuel : (k < fuel)%nat) :
  FrameConn._establish_conn_to_frame up fuel E w
  = (Exit 1,
     with_events w
       (retries k ++ [away_line; Prompt "Retry?" false; aborted_line])%list).
Proof.
  replace fuel with (k + S (fuel - S k))%nat by lia.
  rewrite (establish_rounds E up k _ w (fun j Hj => Hdown j ltac:(lia)) Hretry).
  cbn [FrameConn._establish_conn_to_frame].
  unfold bind at 1. unfold observe at 1. cbn [with_events trace].
  rewrite (Hdown k ltac:(lia)). cbn [negb].
  unfold log.warn, log.prompt_yes_no, bind, observe, tell, ret, sys_exit.
  change (Log ("[warn][warn][/warn] " ++ "Frame connection is not established"))
    with away_line.
  change (Log ("[warn][warn][/warn] " ++ "Script aborted")) with aborted_line.
  cbn [trace emit with_events]. rewrite <- app_assoc, Hno.
  unfold with_events, emit. cbn [trace token account_cache payees_cache
    allowed_recipients_cache get_payee_cache].
  now rewrite <- !app_assoc.
Qed.

Lemma frame_aborts_on_decline_witness :
  FrameConn._establish_conn_to_frame (fun _ => false) 3
    {| http := http fixture; eth_accounts := eth_accounts fixture;
       eth_sign := eth_sign fixture;
       eth_signTypedData_v4 := eth_signTypedData_v4 fixture;
       ask := fun t _ => (length t <? 3)%nat;
       genrand_uint32 := genrand_uint32 fixture |}
    fresh_world
  = (Exit 1,
     with_events fresh_world
       (retries 1 ++ [away_line; Prompt "Retry?" false; aborted_line])%list).
Proof.
  apply (frame_aborts_on_decline _ (fun _ => false) 1 3 fresh_world).
  - intros j Hj. reflexivity.
  - intros [|j] Hj; [reflexivity|lia].
  - reflexivity.
  - lia.
Defined.


